(** * Synthetic product and review generators

    A shallow embedding of [generators/Generate_Products.py] and
    [generators/Generate_Reviews.py], followed by the properties of the
    generators that the specification states.

    Conventions of the embedding:
    - a Python [int] is a [Z]; a Python or numpy [float] is an exact rational
      [Q], so the arithmetic of the source is the arithmetic of the model with
      rounding error left out;
    - a Python [str] is a [string] (all literals of the source are ASCII);
    - a Python exception is the [Raise] case of [Result];
    - the numpy random generator is a state threaded through every call that
      draws from it; its bit generator is an interface ([BitGenerator]), so
      every statement holds for whatever sequence of raw words it produces. *)

From Stdlib Require Import ZArith NArith QArith Qround Qminmax.
From Stdlib Require Import List String Ascii Bool Lia Lqa Sorted.
Import ListNotations.

(** ** Python built-ins *)

Module Py.

Inductive Exn : Type := ValueError | IndexError | KeyError.

Inductive Result (A : Type) : Type :=
| Ok (a : A)
| Raise (e : Exn).
Arguments Ok {A} a.
Arguments Raise {A} e.

Definition bind {A B : Type} (r : Result A) (k : A -> Result B) : Result B :=
  match r with
  | Ok a => k a
  | Raise e => Raise e
  end.

(** [range(n)] *)
Definition range (n : Z) : list Z :=
  map Z.of_nat (seq 0 (Z.to_nat n)).

(** [l[:stop]] for a list; a negative [stop] counts from the end. *)
Definition slice_to {A : Type} (stop : Z) (l : list A) : list A :=
  if (stop <? 0)%Z
  then firstn (List.length l - Z.to_nat (- stop)) l
  else firstn (Z.to_nat stop) l.

(** [d[k]] on a dictionary kept as its list of items, in insertion order. *)
Fixpoint dict_get {K V : Type} (eqb : K -> K -> bool) (d : list (K * V)) (k : K)
  : option V :=
  match d with
  | [] => None
  | (k', v) :: rest => if eqb k' k then Some v else dict_get eqb rest k
  end.

(** [l[i]] for a list; a negative [i] counts from the end. *)
Definition index {A : Type} (l : list A) (i : Z) : Result A :=
  let n := Z.of_nat (List.length l) in
  let j := if (i <? 0)%Z then (i + n)%Z else i in
  if (j <? 0)%Z then Raise IndexError
  else match nth_error l (Z.to_nat j) with
       | Some x => Ok x
       | None => Raise IndexError
       end.

(** [l[i]] read and [l[i] = v] written at a literal index [i >= 0] *)
Definition getitem {A : Type} (l : list A) (i : nat) : Result A :=
  match nth_error l i with
  | Some x => Ok x
  | None => Raise IndexError
  end.

Definition setitem {A : Type} (l : list A) (i : nat) (v : A) : Result (list A) :=
  if (i <? List.length l)%nat
  then Ok (firstn i l ++ v :: skipn (S i) l)
  else Raise IndexError.

(** [[f(x) for x in l]] when [f] may raise *)
Fixpoint traverse {A B : Type} (f : A -> Result B) (l : list A) : Result (list B) :=
  match l with
  | [] => Ok []
  | x :: rest =>
      bind (f x) (fun y => bind (traverse f rest) (fun ys => Ok (y :: ys)))
  end.

Definition dict_keys {K V : Type} (d : list (K * V)) : list K := map fst d.

(** [k in d] *)
Definition dict_mem {K V : Type} (eqb : K -> K -> bool) (d : list (K * V)) (k : K)
  : bool :=
  existsb (fun k' => eqb k' k) (dict_keys d).

(** *** Strings *)

(** The ASCII characters [str.isspace] accepts. *)
Definition is_space (c : ascii) : bool :=
  let n := nat_of_ascii c in
  ((9 <=? n) && (n <=? 13)) || ((28 <=? n) && (n <=? 32)).

(** [sep.join(parts)] *)
Fixpoint join (sep : string) (parts : list string) : string :=
  match parts with
  | [] => EmptyString
  | [p] => p
  | p :: rest => (p ++ sep ++ join sep rest)%string
  end.

Fixpoint lstrip (s : string) : string :=
  match s with
  | EmptyString => EmptyString
  | String c rest => if is_space c then lstrip rest else s
  end.

Fixpoint rstrip (s : string) : string :=
  match s with
  | EmptyString => EmptyString
  | String c rest =>
      match rstrip rest with
      | EmptyString => if is_space c then EmptyString else String c EmptyString
      | r => String c r
      end
  end.

(** [s.strip()] *)
Definition strip (s : string) : string := rstrip (lstrip s).

(** [s.split()]: the maximal runs of non-blank characters. [cur] is the
    run being read, last character first. *)
Fixpoint split_from (cur : list ascii) (s : string) : list string :=
  match s with
  | EmptyString =>
      match cur with
      | [] => []
      | _ => [string_of_list_ascii (rev cur)]
      end
  | String c rest =>
      if is_space c
      then match cur with
           | [] => split_from [] rest
           | _ => string_of_list_ascii (rev cur) :: split_from [] rest
           end
      else split_from (c :: cur) rest
  end.

Definition split (s : string) : list string := split_from [] s.

(** [c in s] for a one-character [c] *)
Fixpoint contains (c : ascii) (s : string) : bool :=
  match s with
  | EmptyString => false
  | String c' rest => Ascii.eqb c' c || contains c rest
  end.

(** [s.split(c, 1)[0]]: the text before the first [c], all of [s] when
    there is none. *)
Fixpoint before_first (c : ascii) (s : string) : string :=
  match s with
  | EmptyString => EmptyString
  | String c' rest => if Ascii.eqb c' c then EmptyString else String c' (before_first c rest)
  end.

Definition lower_ascii (c : ascii) : ascii :=
  let n := nat_of_ascii c in
  if (65 <=? n) && (n <=? 90) then ascii_of_nat (n + 32) else c.

(** [s.lower()] *)
Fixpoint lower (s : string) : string :=
  match s with
  | EmptyString => EmptyString
  | String c rest => String (lower_ascii c) (lower rest)
  end.

(** [s.endswith(suffix)] *)
Definition endswith (s suffix : string) : bool :=
  let n := String.length s in
  let k := String.length suffix in
  (k <=? n) && String.eqb (substring (n - k) k s) suffix.

(** [s[:stop]] for a string; a negative [stop] counts from the end. *)
Definition str_slice_to (stop : Z) (s : string) : string :=
  if (stop <? 0)%Z
  then substring 0 (String.length s - Z.to_nat (- stop)) s
  else substring 0 (Z.to_nat stop) s.

End Py.
Import Py.

Declare Scope result_scope.
Delimit Scope result_scope with result.
Notation "'let!' x ':=' c 'in' k" :=
  (Py.bind c (fun x => k))
  (at level 10, x pattern, c at level 100, k at level 200) : result_scope.

(** ** numpy *)

Module Np.

Local Open Scope Q_scope.

Definition Qlt_bool (x y : Q) : bool := negb (Qle_bool y x).

(** Python's [max(a, b)] and [min(a, b)] on floats: the first argument
    unless the second is strictly beyond it. *)
Definition max (a b : Q) : Q := if Qlt_bool a b then b else a.
Definition min (a b : Q) : Q := if Qlt_bool b a then b else a.

(** [a.sum()] *)
Definition sum (a : list Q) : Q := fold_left Qplus a 0.

(** [a.cumsum()] started from [acc] *)
Fixpoint cumsum_from (acc : Q) (a : list Q) : list Q :=
  match a with
  | [] => []
  | x :: rest => (acc + x) :: cumsum_from (acc + x) rest
  end.

Definition cumsum (a : list Q) : list Q := cumsum_from 0 a.

(** [np.clip(a, lo, hi)]: [minimum(maximum(a, lo), hi)] entry by entry. *)
Definition clip (a : list Q) (lo hi : Q) : list Q :=
  map (fun x => min (max x lo) hi) a.

(** [a /= d] *)
Definition div_all (a : list Q) (d : Q) : list Q := map (fun x => x / d) a.

(** [np.rint]: the nearest integer, ties to the even one. *)
Definition rint (q : Q) : Z :=
  let n := Qnum q in
  let d := Zpos (Qden q) in
  let f := (n / d)%Z in
  match (2 * (n mod d) ?= d)%Z with
  | Lt => f
  | Gt => (f + 1)%Z
  | Eq => if Z.even f then f else (f + 1)%Z
  end.

(** [np.round(x, decimals)] for [decimals >= 0]: scale, [rint], scale back. *)
Definition round (x : Q) (decimals : nat) : Q :=
  let scale := Z.pow 10 (Z.of_nat decimals) in
  inject_Z (rint (x * inject_Z scale)) / inject_Z scale.

(** [np.arange(start, stop)] on integers *)
Definition arange (start stop : Z) : list Z :=
  map (fun i => (start + Z.of_nat i)%Z) (seq 0 (Z.to_nat (stop - start))).

(** [a.searchsorted(v, side='right')] on a sorted array: the number of
    leading entries that are at most [v]. *)
Fixpoint searchsorted_right (a : list Q) (v : Q) : nat :=
  match a with
  | [] => 0%nat
  | x :: rest => if Qle_bool x v then S (searchsorted_right rest v) else 0%nat
  end.

(** *** The random generator

    [np.random.default_rng(seed)] builds a generator from a seed; every
    draw consumes raw 64-bit words of its bit generator. The bit generator
    is left abstract: a type of states, the state a seed gives, and the
    step that yields the next word. *)

Class BitGenerator (Rng : Type) : Type := {
  default_rng : Z -> Rng;
  next_uint64 : Rng -> N * Rng
}.

Section Generator.

Context {Rng : Type} `{BitGenerator Rng}.

(** A computation that draws from the generator and may raise. *)
Definition Gen (A : Type) : Type := Rng -> Result (A * Rng).

Definition ret {A : Type} (a : A) : Gen A := fun g => Ok (a, g).

Definition throw {A : Type} (e : Exn) : Gen A := fun _ => Raise e.

Definition gbind {A B : Type} (m : Gen A) (k : A -> Gen B) : Gen B :=
  fun g =>
    match m g with
    | Ok (a, g') => k a g'
    | Raise e => Raise e
    end.

Definition lift {A : Type} (r : Result A) : Gen A :=
  fun g =>
    match r with
    | Ok a => Ok (a, g)
    | Raise e => Raise e
    end.

(** [rng.random()]: 53 bits of the next word, as a fraction in [0, 1). *)
Definition random : Gen Q :=
  fun g =>
    let (w, g') := next_uint64 g in
    Ok (Z.of_N ((w mod 2 ^ 64) / 2 ^ 11) # 2 ^ 53, g').

(** [rng.integers(low, high)]: an integer in [low, high), here the one the
    next word gives by its remainder; raises when the interval is empty. *)
Definition integers (low high : Z) : Gen Z :=
  fun g =>
    if (high <=? low)%Z then Raise ValueError
    else
      let (w, g') := next_uint64 g in
      Ok ((low + Z.of_N w mod (high - low))%Z, g').

(** [rng.uniform(low, high)] *)
Definition uniform (low high : Q) : Gen Q :=
  gbind random (fun u => ret (low + (high - low) * u)).

(** [rng.choice(a)]: one entry of [a], uniformly. *)
Definition choice {A : Type} (a : list A) : Gen A :=
  gbind (integers 0 (Z.of_nat (List.length a))) (fun i =>
    match nth_error a (Z.to_nat i) with
    | Some x => ret x
    | None => throw IndexError
    end).

(** [rng.choice(a, p=p)]: validates [p] against [a], then inverts the
    normalised cumulative distribution at a uniform draw. *)
Definition choice_p {A : Type} (a : list A) (p : list Q) : Gen A :=
  if negb (List.length a =? List.length p)%nat then throw ValueError
  else if existsb (fun x => Qlt_bool x 0) p then throw ValueError
  else if negb (Qeq_bool (sum p) 1) then throw ValueError
  else
    gbind random (fun u =>
      let cdf := cumsum p in
      let cdf := div_all cdf (last cdf 0) in
      match nth_error a (searchsorted_right cdf u) with
      | Some x => ret x
      | None => throw IndexError
      end).

(** [n] draws in a row, in order. *)
Fixpoint draws {A : Type} (n : nat) (m : Gen A) : Gen (list A) :=
  match n with
  | O => ret []
  | S n' => gbind m (fun x => gbind (draws n' m) (fun xs => ret (x :: xs)))
  end.

(** A loop over [l] whose body draws: the results, in order. *)
Fixpoint for_each {A B : Type} (f : A -> Gen B) (l : list A) : Gen (list B) :=
  match l with
  | [] => ret []
  | x :: rest => gbind (f x) (fun y => gbind (for_each f rest) (fun ys => ret (y :: ys)))
  end.

(** A draw with [size=n]: an array of [n] values; a negative size is
    refused. *)
Definition sized {A : Type} (m : Gen A) (size : Z) : Gen (list A) :=
  if (size <? 0)%Z then throw ValueError else draws (Z.to_nat size) m.

End Generator.

(** [always m P]: from every state of the generator, [m] returns, and what
    it returns satisfies [P]. *)
Definition always (Rng : Type) {A : Type} (m : Gen (Rng:=Rng) A) (P : A -> Prop) : Prop :=
  forall g, exists x g', m g = Ok (x, g') /\ P x.

End Np.

Declare Scope gen_scope.
Delimit Scope gen_scope with gen.
Notation "x <- c ;; k" :=
  (Np.gbind c (fun x => k))
  (at level 100, c at next level, right associativity) : gen_scope.
Notation "' pat <- c ;; k" :=
  (Np.gbind c (fun x => match x with pat => k end))
  (at level 100, pat pattern, c at next level, right associativity) : gen_scope.

(** ** The product generator: [generators/Generate_Products.py] *)

Module Generate_Products.

Import Np.
Local Open Scope string_scope.

Definition CATEGORY_PRODUCTS : list (string * list string) :=
  [ ("Electronics",
     ["Wireless Bluetooth Earbuds"; "Noise Cancelling Headphones";
      "Portable Power Bank 20000mAh"; "USB-C Fast Charger 65W"; "4K Streaming Stick";
      "Smart Speaker with Alexa"; "1080p USB Webcam"; "Mechanical Gaming Keyboard";
      "Ergonomic Wireless Mouse"; "27-inch 4K Monitor"; "Wi-Fi 6 Router"; "External SSD 1TB"]);
    ("Computers & Accessories",
     ["Laptop Stand Adjustable Aluminum"; "USB-C Hub Multiport Adapter"; "HDMI Cable 6ft 4K";
      "Bluetooth Keyboard for Tablet"; "Gaming Mouse Pad Extended";
      "Webcam Privacy Cover (Pack of 3)"; "Portable Laptop Charger"; "DisplayPort Cable 8K";
      "NVMe SSD Enclosure USB-C"; "Ethernet Adapter USB 3.0"]);
    ("Smart Home",
     ["Smart Plug Mini (4 Pack)"; "Smart LED Light Bulb Color Changing";
      "Video Doorbell Camera"; "Indoor Security Camera 1080p"; "Smart Thermostat";
      "Smart Light Switch"; "Robot Vacuum Cleaner"; "Smart Smoke Detector";
      "Smart Motion Sensor"; "Smart Door Lock Keyless Entry"]);
    ("Home & Kitchen",
     ["Stainless Steel Water Bottle 32oz"; "Nonstick Frying Pan 12-inch";
      "Air Fryer 6 Quart"; "Electric Kettle Temperature Control"; "Memory Foam Pillow";
      "Vacuum Storage Bags (10 Pack)"; "Kitchen Knife Set with Block"; "Dish Drying Rack";
      "Bamboo Cutting Board Set"; "LED Desk Lamp Dimmable"]);
    ("Furniture",
     ["Ergonomic Office Chair with Lumbar Support"; "Standing Desk Converter";
      "Bookshelf 5-Tier Industrial"; "Storage Ottoman Bench";
      "Side Table with Charging Station"; "Adjustable Bar Stools Set of 2";
      "Computer Desk with Shelves"; "Accent Chair Modern"]);
    ("Tools & Home Improvement",
     ["Cordless Drill Driver Kit"; "Digital Laser Measuring Tool";
      "Socket Wrench Set 108-Piece"; "Utility Knife Retractable";
      "Heavy Duty Extension Cord 25ft"; "LED Work Light Rechargeable";
      "Stud Finder with Deep Scan"; "Smart Tape Measure"; "Screwdriver Set Magnetic"]);
    ("Sports & Outdoors",
     ["Yoga Mat Non-Slip"; "Adjustable Dumbbells Pair"; "Resistance Bands Set";
      "Insulated Water Bottle"; "Camping Lantern LED"; "Hiking Backpack 40L";
      "Trekking Poles Collapsible"; "Fitness Tracker Watch"; "Inflatable Sleeping Pad";
      "Bike Phone Mount"]);
    ("Clothing",
     ["Men's Performance T-Shirt"; "Women's High-Waisted Leggings"; "Unisex Hoodie Fleece";
      "Men's Slim Fit Jeans"; "Women's Summer Dress"; "Athletic Socks Cushioned (6 Pack)";
      "Winter Beanie Knit"; "Rain Jacket Lightweight"]);
    ("Shoes",
     ["Men's Running Shoes Breathable"; "Women's Walking Shoes"; "Slip-On Sneakers";
      "Hiking Boots Waterproof"; "Casual Loafers"; "Training Shoes Lightweight"]);
    ("Beauty & Personal Care",
     ["Electric Toothbrush Rechargeable"; "Facial Cleanser Gentle";
      "Vitamin C Serum for Face"; "Hair Dryer Ionic"; "Beard Trimmer Kit";
      "Sunscreen SPF 50"; "Moisturizing Body Lotion"; "Makeup Brush Set"]);
    ("Health & Household",
     ["Digital Thermometer"; "Blood Pressure Monitor"; "First Aid Kit 200 Piece";
      "Hand Sanitizer Gel"; "Air Purifier HEPA"; "Laundry Detergent Pods";
      "Disinfecting Wipes"; "Pain Relief Patches"]);
    ("Baby",
     ["Baby Diapers Size 3 (120 Count)"; "Baby Wipes Sensitive (8 Pack)";
      "Convertible Car Seat"; "Baby Monitor with Camera"; "Portable Changing Pad";
      "Silicone Baby Bibs (3 Pack)"]);
    ("Pet Supplies",
     ["Dry Dog Food 20lb"; "Cat Litter Clumping 40lb"; "Dog Training Pads (100 Count)";
      "Interactive Cat Toy"; "Pet Grooming Brush"; "Dog Leash Heavy Duty";
      "Cat Water Fountain"]);
    ("Toys & Games",
     ["Building Blocks Set 500pcs"; "Remote Control Car"; "Puzzle 1000 Pieces";
      "Board Game Family Edition"; "STEM Science Kit"; "Dollhouse Furniture Set";
      "Kids Art Supplies Kit"]);
    ("Books",
     ["Hardcover Notebook Dotted"; "Cookbook: Quick & Easy Meals";
      "Science Fiction Novel Bestseller"; "Children's Picture Book";
      "Productivity Planner Weekly"; "Language Learning Workbook"]);
    ("Office Products",
     ["Ballpoint Pens Black (12 Pack)"; "Wireless Label Maker"; "Desk Organizer Mesh";
      "Sticky Notes Assorted Colors"; "Printer Paper 500 Sheets"; "Ergonomic Wrist Rest";
      "Whiteboard Markers Set"]);
    ("Video Games",
     ["Gaming Controller Wireless"; "Gaming Headset Surround Sound";
      "Mechanical Keyboard RGB"; "Console Charging Dock"; "Gaming Chair Mat"]);
    ("Automotive",
     ["Car Phone Mount Magnetic"; "Jump Starter Battery Pack";
      "Tire Inflator Portable Air Compressor"; "Windshield Sun Shade";
      "Car Vacuum Cleaner Handheld"; "OBD2 Scanner Diagnostic Tool"]);
    ("Industrial & Scientific",
     ["Safety Glasses Anti-Fog"; "Nitrile Gloves Box of 100";
      "Digital Caliper Stainless Steel"; "Labeling Tape Refill";
      "ESD Anti-Static Wrist Strap"; "Infrared Thermometer Gun"]);
    ("Arts, Crafts & Sewing",
     ["Acrylic Paint Set 24 Colors"; "Sketchbook Hardcover A4"; "Hot Glue Gun Kit";
      "Knitting Needles Set"; "Craft Scissors Titanium"; "Sewing Thread Set 60 Spools"]) ].

Definition BRANDS : list string :=
  ["Anker"; "Samsung"; "Sony"; "Logitech"; "Amazon Basics"; "Apple"; "HP"; "Dell"; "ASUS";
   "Lenovo"; "Bose"; "Philips"; "Nike"; "Adidas"; "Under Armour"; "Instant Pot"; "Shark";
   "Dyson"; "Fitbit"; "Ring"; "TP-Link"; "Roku"; "JBL"; "Belkin"; "Xiaomi"; "Spigen";
   "Hydro Flask"; "Brita"; "KitchenAid"; "LEGO"].

Definition QUALIFIERS : list string :=
  ["New"; "2026 Model"; "Upgraded"; "Premium"; "Ultra"; "Pro"; "Compact"; "Lightweight";
   "Heavy Duty"; "High Performance"; "Fast Charging"; "Waterproof"; "Wireless";
   "Rechargeable"].

Definition BUNDLE_HINTS : list string :=
  [EmptyString; EmptyString; EmptyString; " (2 Pack)"; " (3 Pack)"; " (4 Pack)";
   " Bundle"].

Definition COLORS : list string :=
  [EmptyString; EmptyString; EmptyString; " - Black"; " - White"; " - Blue"; " - Gray";
   " - Red"].

Definition SIZES : list string :=
  [EmptyString; EmptyString; EmptyString; EmptyString; " Small"; " Medium"; " Large";
   " XL"; " 1TB"; " 2TB"; " 64GB"; " 128GB"; " 20000mAh"].

(** The parsed command line. *)
Record Args : Type := {
  rows : Z;
  output : string;
  seed : Z
}.

(** The table [main] builds, column by column. *)
Record DataFrame : Type := {
  id : list Z;
  product_category : list string;
  product_name : list string;
  price_usd : list Q;
  inventory_count : list Z;
  margin : list Q
}.

Definition nonempty (s : string) : bool :=
  match s with
  | EmptyString => false
  | _ => true
  end.

Section Run.

Context {Rng : Type} `{BitGenerator Rng}.
Local Open Scope gen_scope.

(** The condition of the conditional expression is evaluated first, so
    [rng.random()] is drawn before [rng.choice(QUALIFIERS)]. *)
Definition make_amazon_title (base : string) : Gen string :=
  brand <- choice BRANDS ;;
  u <- random ;;
  qualifier <- (if Qlt_bool u 0.75 then choice QUALIFIERS else ret EmptyString) ;;
  size <- choice SIZES ;;
  color <- choice COLORS ;;
  bundle <- choice BUNDLE_HINTS ;;
  let parts := List.app [brand]
                 (List.app (if nonempty qualifier then [qualifier] else [])
                           [base ++ size]) in
  let title := strip (join " " (filter nonempty parts)) in
  let title := strip (title ++ color ++ bundle) in
  ret (join " " (split title)).

(** The body of the loop that names the products. *)
Definition name_product (cat : string) : Gen string :=
  match dict_get String.eqb CATEGORY_PRODUCTS cat with
  | None => throw KeyError
  | Some bases =>
      base <- choice bases ;;
      make_amazon_title base
  end.

(** [main], from the generator [rng] on. [ids] fit in [int64] and
    [inventory_count] in [int32] for every table that fits in memory,
    so neither wraps. *)
Definition build_table (rows : Z) : Gen DataFrame :=
  let categories := dict_keys CATEGORY_PRODUCTS in
  if negb (List.length categories =? 20)%nat then throw ValueError
  else
    let ids := arange 1 (rows + 1) in
    let cat_idx := map (fun i => ((i - 1) mod Z.of_nat (List.length categories))%Z) ids in
    product_categories <- lift (traverse (index categories) cat_idx) ;;
    product_names <- for_each name_product product_categories ;;
    prices <- sized (uniform 4.99 999.99) rows ;;
    inventory <- sized (integers 0 250000) rows ;;
    margins <- sized (uniform 0.05 0.75) rows ;;
    ret {| id := ids;
           product_category := product_categories;
           product_name := product_names;
           price_usd := map (fun x => round x 2) prices;
           inventory_count := inventory;
           margin := map (fun x => round x 4) margins |}.

(** [main]: the file it writes, as the path and the table written in
    the one call of [pq.write_table]. *)
Definition main (args : Args) : Result (string * DataFrame) :=
  match build_table (rows args) (default_rng (seed args)) with
  | Ok (df, _) => Ok (output args, df)
  | Raise e => Raise e
  end.

End Run.

End Generate_Products.

(** ** The review generator: [generators/Generate_Reviews.py] *)

Module Generate_Reviews.

Import Np.
Local Open Scope string_scope.
Local Open Scope Q_scope.

Definition MAX_REVIEW_CHARS : Z := 100000.
Definition DEFAULT_MAX_REVIEWS : Z := 5.
Definition DEFAULT_BATCH_SIZE : Z := 100000.

Record Persona : Type := {
  persona : string;
  first_names : list string;
  last_names : list string;
  age_range : Z * Z;
  locations : list string;
  focus : string
}.

Record Template : Type := {
  openers : list string;
  middles : list string;
  closers : list string
}.

Definition PERSONAS : list Persona :=
  [ {| persona := "Tech Enthusiast";
       first_names := ["Alex"; "Jordan"; "Taylor"; "Sam"; "Riley"; "Casey"];
       last_names := ["Ng"; "Patel"; "Garcia"; "Smith"; "Khan"; "Brown"];
       age_range := (22, 45)%Z;
       locations := ["San Francisco, CA"; "Berlin, DE"; "London, UK"; "Austin, TX"];
       focus := "performance" |};
    {| persona := "Bargain Hunter";
       first_names := ["Jamie"; "Morgan"; "Avery"; "Charlie"];
       last_names := ["Diaz"; "Chen"; "O'Neill"; "Lopez"];
       age_range := (25, 60)%Z;
       locations := ["Nashville, TN"; "Madrid, ES"; "Chicago, IL"];
       focus := "value" |};
    {| persona := "Parent Reviewer";
       first_names := ["Pat"; "Kelly"; "Dana"; "Robin"];
       last_names := ["Williams"; "Miller"; "Wilson"; "Davis"];
       age_range := (30, 50)%Z;
       locations := ["Seattle, WA"; "Paris, FR"; "Toronto, CA"];
       focus := "durability" |};
    {| persona := "Outdoor Enthusiast";
       first_names := ["Blake"; "Drew"; "Harper"; "Parker"];
       last_names := ["Hunt"; "Stone"; "Wells"; "Fisher"];
       age_range := (20, 55)%Z;
       locations := ["Denver, CO"; "Vancouver, CA"; "Rotorua, NZ"];
       focus := "weatherproofing" |};
    {| persona := "Home Chef";
       first_names := ["Maya"; "Noah"; "Liam"; "Ivy"];
       last_names := ["Singh"; "Martinez"; "Rossi"; "Keller"];
       age_range := (24, 65)%Z;
       locations := ["Rome, IT"; "Melbourne, AU"; "Boston, MA"];
       focus := "ease_of_use" |};
    {| persona := "Audiophile";
       first_names := ["Evan"; "Kai"; "Zoe"; "Nina"];
       last_names := ["Park"; "Hernandez"; "Lopez"; "Morris"];
       age_range := (18, 50)%Z;
       locations := ["Tokyo, JP"; "Seoul, KR"; "Brooklyn, NY"];
       focus := "sound_quality" |};
    {| persona := "Frequent Traveler";
       first_names := ["Chris"; "Patrice"; "Jo"; "Samir"];
       last_names := ["Baker"; "Singh"; "Ali"; "Johnson"];
       age_range := (28, 58)%Z;
       locations := ["Dubai, AE"; "Singapore, SG"; "Los Angeles, CA"];
       focus := "portability" |};
    {| persona := "Pet Owner";
       first_names := ["Lena"; "Omar"; "Bea"; "Hannah"];
       last_names := ["Ramirez"; "Gonzalez"; "Brown"; "Evans"];
       age_range := (21, 70)%Z;
       locations := ["Minneapolis, MN"; "Dublin, IE"; "Lima, PE"];
       focus := "safety" |} ].

(** For ratings 1 to 5. *)
Definition BASE_RATING_PROBS : list Q := [0.07; 0.11; 0.22; 0.33; 0.27].

Definition CATEGORY_BIASES : list (string * Q) :=
  [ ("Electronics", (-0.10));
    ("Automotive", (-0.08));
    ("Tools", (-0.05));
    ("Clothing", 0.02);
    ("Shoes", 0.01);
    ("Toys", 0.03);
    ("Books", 0.08);
    ("Music", 0.06);
    ("Movies", 0.04);
    ("Health", 0.00);
    ("Beauty", 0.03);
    ("Grocery", 0.02);
    ("Home", 0.03);
    ("Garden", 0.01);
    ("Sports", 0.00);
    ("Office", 0.02);
    ("Pets", 0.04);
    ("Baby", 0.05);
    ("Outdoors", (-0.02));
    ("Jewelry", 0.05);
    ("General", 0.0) ].

Definition BASE_TEMPLATES : list (Z * Template) :=
  [ (1%Z,
     {| openers := ["Terrible experience with"; "I regret buying"; "Completely unsatisfied with"];
        middles := ["It broke after a few uses and support did nothing.";
          "The build felt cheap and failed."; "Multiple defects and poor reliability."];
        closers := ["Would not recommend."; "Save your money."; "I returned it and asked for a refund."] |});
    (2%Z,
     {| openers := ["Disappointing overall for"; "Not what I expected from"; "Mixed feelings about"];
        middles := ["Works sometimes but has flaws."; "Some features are fine but execution lacks.";
          "Disappointing quality in several places."];
        closers := ["There are better options."; "I probably won't buy again."; "Needs improvement."] |});
    (3%Z,
     {| openers := ["It's okay for"; "Average experience with"; "Works as expected for"];
        middles := ["It does the job but doesn't excel."; "Reasonable quality at this price.";
          "Has pros and cons."];
        closers := ["A decent neutral pick."; "Satisfactory if you need something simple.";
          "Not exceptional but usable."] |});
    (4%Z,
     {| openers := ["Pretty pleased with"; "Good value in"; "Solid performance for"];
        middles := ["Performs reliably and feels well constructed.";
          "Met expectations and pleasant to use."; "A few small issues, but overall positive."];
        closers := ["Would recommend."; "Good buy."; "I'd purchase again."] |});
    (5%Z,
     {| openers := ["Absolutely love"; "Fantastic product:"; "Exceeded expectations with"];
        middles := ["Top-tier quality and attention to detail.";
          "Performs flawlessly and is a joy to use."; "Everything feels premium and reliable."];
        closers := ["Highly recommended!"; "Five stars."; "Worth every penny."] |}) ].

(** The dictionary [sample_persona] returns. *)
Module PersonaInfo.
Record t : Type := {
  reviewer_name : string;
  reviewer_persona : string;
  reviewer_age : Z;
  reviewer_location : string;
  persona_focus : string
}.
End PersonaInfo.

(** The first line of [adjust_probs_for_category]:
    [CATEGORY_BIASES.get(category, CATEGORY_BIASES.get(General, 0.0))]. *)
Definition category_bias (category : string) : Q :=
  match dict_get String.eqb CATEGORY_BIASES category with
  | Some b => b
  | None =>
      match dict_get String.eqb CATEGORY_BIASES "General" with
      | Some b => b
      | None => 0.0
      end
  end.

(** The rest of [adjust_probs_for_category], from the [bias] it looked
    up. The entries a line reads again before any write to them are read
    once here. *)
Definition adjust_probs (bias : Q) (base_probs : list Q) : Result (list Q) :=
  let probs := base_probs in
  if Qeq_bool bias 0 then Ok probs
  else
    let shift := max (min (bias * 0.5) 0.15) (-0.15) in
    (let! probs :=
       if Qlt_bool 0 shift then
         let! p0 := getitem probs 0 in
         let! p1 := getitem probs 1 in
         let move_from_low := shift * (p0 + p1) in
         if Qlt_bool 0 move_from_low then
           let reduction0 := p0 * (move_from_low / (p0 + p1)) in
           let reduction1 := p1 * (move_from_low / (p0 + p1)) in
           let! probs := setitem probs 0 (p0 - reduction0) in
           let! probs := setitem probs 1 (p1 - reduction1) in
           let! p3 := getitem probs 3 in
           let! p4 := getitem probs 4 in
           let addition_total := p3 + p4 in
           if Qle_bool addition_total 0 then
             let! probs := setitem probs 3 (p3 + move_from_low * 0.5) in
             setitem probs 4 (p4 + move_from_low * 0.5)
           else
             let! probs := setitem probs 3 (p3 + move_from_low * (p3 / addition_total)) in
             setitem probs 4 (p4 + move_from_low * (p4 / addition_total))
         else Ok probs
       else
         let! p3 := getitem probs 3 in
         let! p4 := getitem probs 4 in
         let move_from_high := (- shift) * (p3 + p4) in
         if Qlt_bool 0 move_from_high then
           let reduction0 := p3 * (move_from_high / (p3 + p4)) in
           let reduction1 := p4 * (move_from_high / (p3 + p4)) in
           let! probs := setitem probs 3 (p3 - reduction0) in
           let! probs := setitem probs 4 (p4 - reduction1) in
           let! p0 := getitem probs 0 in
           let! p1 := getitem probs 1 in
           let addition_total := p0 + p1 in
           if Qle_bool addition_total 0 then
             let! probs := setitem probs 0 (p0 + move_from_high * 0.5) in
             setitem probs 1 (p1 + move_from_high * 0.5)
           else
             let! probs := setitem probs 0 (p0 + move_from_high * (p0 / addition_total)) in
             setitem probs 1 (p1 + move_from_high * (p1 / addition_total))
         else Ok probs
     in
     let probs := clip probs 1e-6 1.0 in
     Ok (div_all probs (sum probs)))%result.

Definition adjust_probs_for_category (base_probs : list Q) (category : string)
  : Result (list Q) :=
  adjust_probs (category_bias category) base_probs.

(** The weight table of [choose_num_reviews], and the [weights] it
    draws with: the table cut to [max_reviews + 1] entries, divided by
    their sum. *)
Definition REVIEW_COUNT_WEIGHTS : list Q := [0.20; 0.28; 0.22; 0.15; 0.10; 0.05].

Definition review_count_weights (max_reviews : Z) : list Q :=
  let weights := slice_to (max_reviews + 1) REVIEW_COUNT_WEIGHTS in
  div_all weights (sum weights).

(** [safe_truncate] *)
Definition safe_truncate (text : string) (max_chars : Z) : string :=
  if (Z.of_nat (String.length text) <=? max_chars)%Z then text
  else str_slice_to (max_chars - 1) text.

(** The parsed command line. *)
Record Args : Type := {
  input_parquet : string;
  id_column : string;
  name_column : string;
  category_column : string;
  output : string;
  max_reviews_per_product : Z;
  batch_size : Z;
  seed : Z;
  years_back : Z
}.

(** One row of the product file, in the three columns that are read; a
    null category cell is [None]. *)
Record ProductRow : Type := {
  row_id : Z;
  row_name : string;
  row_category : option string
}.

(** The product file: its row groups, in order. It holds every column
    that is asked for. *)
Record ParquetFile : Type := {
  row_groups : list (list ProductRow)
}.

(** A batch as [iter_products_from_parquet] yields it. *)
Record Batch : Type := {
  columns : list string;
  batch_rows : list ProductRow
}.

(** One output record. *)
Record Review : Type := {
  review_id : Z;
  product_id : Z;
  product_name : string;
  product_category : string;
  rating : Z;
  review_text : string;
  reviewer_name : string;
  reviewer_persona : string;
  reviewer_age : Z;
  reviewer_location : string;
  review_date : string
}.

(** What reaches the output file, call by call. *)
Inductive Write : Type :=
| to_csv (path : string) (header : bool) (rows_out : list Review)
| ParquetWriter (path : string)
| write_table (rows_out : list Review)
| close.

(** The rows a call writes. *)
Definition rows_of (w : Write) : list Review :=
  match w with
  | to_csv _ _ rows_out => rows_out
  | write_table rows_out => rows_out
  | ParquetWriter _ => []
  | close => []
  end.

(** [Table.to_batches(max_chunksize)]: consecutive chunks of at most
    [size] rows. [room] is what the chunk being filled, [cur] (last row
    first), can still take. *)
Fixpoint chunk_from {A : Type} (size room : nat) (cur : list A) (rows : list A)
  : list (list A) :=
  match rows with
  | [] =>
      match cur with
      | [] => []
      | _ => [rev cur]
      end
  | r :: rest =>
      match room with
      | O => rev cur :: chunk_from size (Nat.pred size) [r] rest
      | S room' => chunk_from size room' (r :: cur) rest
      end
  end.

(** A chunk size below 1 is outside what the library accepts; it is read
    as 1. *)
Definition to_batches {A : Type} (max_chunksize : Z) (rows : list A) : list (list A) :=
  let size := Pos.to_nat (Z.to_pos max_chunksize) in
  chunk_from size size [] rows.

(** The [columns] that [iter_products_from_parquet] reads: the category
    column only when it is named. *)
Definition columns_to_read (id_col name_col category_col : string) : list string :=
  List.app [id_col; name_col]
           (match category_col with
            | EmptyString => []
            | _ => [category_col]
            end).

(** [iter_products_from_parquet]: the batches, in the order they are
    yielded. *)
Definition iter_products_from_parquet (pf : ParquetFile)
  (id_col name_col category_col : string) (batch_size : Z) : list Batch :=
  let columns := columns_to_read id_col name_col category_col in
  flat_map
    (fun row_group_table =>
       map (fun rows => {| columns := columns; batch_rows := rows |})
           (to_batches batch_size row_group_table))
    (row_groups pf).

Section Run.

Context {Rng : Type} `{BitGenerator Rng}.

(** [datetime.strftime] with the format of [sample_review_date], on a
    time in microseconds. *)
Variable strftime : Z -> string.

(** The clock. [sample_review_date] reads it once for each review, so a
    clock is given by what it shows when the review of each id is made. *)
Variable now_at : Z -> Z.

Local Open Scope gen_scope.

Definition sample_persona : Gen PersonaInfo.t :=
  persona <- choice PERSONAS ;;
  first <- choice (first_names persona) ;;
  last <- choice (last_names persona) ;;
  let full_name := (first ++ " " ++ last)%string in
  age <- integers (fst (age_range persona)) (snd (age_range persona) + 1) ;;
  location <- choice (locations persona) ;;
  ret {| PersonaInfo.reviewer_name := full_name;
         PersonaInfo.reviewer_persona := persona.(Generate_Reviews.persona);
         PersonaInfo.reviewer_age := age;
         PersonaInfo.reviewer_location := location;
         PersonaInfo.persona_focus := focus persona |}.

Definition choose_num_reviews (max_reviews : Z) : Gen Z :=
  if (max_reviews <? 1)%Z then ret 0%Z
  else choice_p (range (max_reviews + 1)) (review_count_weights max_reviews).

Definition choose_rating_for_category (category : string) : Gen Z :=
  probs <- lift (adjust_probs_for_category BASE_RATING_PROBS category) ;;
  choice_p [1; 2; 3; 4; 5]%Z probs.

(** [sample_review_date]. [now - start] is the look-back window itself,
    so its length in seconds does not depend on [now]. Times are counted
    in microseconds and taken to stay within what [datetime] can hold. *)
Definition sample_review_date (now : Z) (years_back : Z) : Gen string :=
  let window := (365 * years_back * 86400)%Z in
  let start := (now - window * 1000000)%Z in
  random_seconds <- integers 0 (window + 1) ;;
  let dt := (start + random_seconds * 1000000)%Z in
  ret (strftime dt).

Definition make_review_text (rating : Z) (product_name product_category : string)
  (persona_info : PersonaInfo.t) : Gen string :=
  match dict_get Z.eqb BASE_TEMPLATES rating with
  | None => throw KeyError
  | Some tpl =>
      opener <- choice (openers tpl) ;;
      middle <- choice (middles tpl) ;;
      closer <- choice (closers tpl) ;;
      let focus := PersonaInfo.persona_focus persona_info in
      let persona_phrase :=
        if String.eqb focus "performance" then "As someone who values performance, "
        else if String.eqb focus "value" then "As someone who looks for value, "
        else if String.eqb focus "durability" then "With kids in the house, "
        else if String.eqb focus "weatherproofing" then "I use it outdoors often, so "
        else if String.eqb focus "ease_of_use"
             then "I cook a lot and care about ease of use, so "
        else if String.eqb focus "sound_quality" then "As an audiophile, "
        else if String.eqb focus "portability" then "I travel a lot, so "
        else if String.eqb focus "safety" then "With pets around, "
        else EmptyString in
      let category_phrase :=
        (" In the " ++ product_category ++ " category, this product")%string in
      extra <- (if (4 <=? rating)%Z then
                  choice ["It consistently performs well in daily use.";
                          "Setup was straightforward and painless.";
                          "Materials and fit/finish are impressive for the price."]
                else if (rating =? 3)%Z then
                  choice ["It's serviceable for common tasks but not outstanding.";
                          "It does what it needs to, but don't expect surprises.";
                          "Good for occasional use or budget setups."]
                else
                  choice ["It caused repeated issues during normal use.";
                          "Support and documentation were inadequate.";
                          "I encountered multiple defects and usability problems."]) ;;
      let persona_line :=
        (" - " ++ PersonaInfo.reviewer_name persona_info ++ ", "
         ++ PersonaInfo.reviewer_persona persona_info ++ ", "
         ++ PersonaInfo.reviewer_location persona_info)%string in
      let full :=
        (join " " [(opener ++ " " ++ product_name ++ ".")%string;
                   (persona_phrase ++ middle)%string;
                   (category_phrase ++ ".")%string;
                   extra;
                   closer]
         ++ " " ++ persona_line)%string in
      ret (safe_truncate full MAX_REVIEW_CHARS)
  end.

(** The category of a product row as it is provided or, without a
    category column, derived from the name:
    [str(cell) if pd.notna(cell) else General] and
    [pname.split(_, 1)[0] if _ in pname else General]. *)
Definition provided_or_derived (has_category : bool) (p_row : ProductRow) : string :=
  let pname := row_name p_row in
  if has_category then
    match row_category p_row with
    | Some c => c
    | None => "General"
    end
  else if contains "_" pname then before_first "_" pname else "General".

(** [pcat if pcat in CATEGORY_BIASES else General] *)
Definition known_or_general (pcat : string) : string :=
  if dict_mem String.eqb CATEGORY_BIASES pcat then pcat else "General".

(** The body of [for _ in range(n_reviews)], up to the record it
    appends. *)
Definition make_review (args : Args) (pid : Z) (pname pcat : string)
  (review_id_counter : Z) : Gen Review :=
  persona_info <- sample_persona ;;
  rating <- choose_rating_for_category pcat ;;
  review_text <- make_review_text rating pname pcat persona_info ;;
  review_date <- sample_review_date (now_at review_id_counter) (years_back args) ;;
  ret {| review_id := review_id_counter;
         product_id := pid;
         product_name := pname;
         product_category := pcat;
         rating := rating;
         review_text := review_text;
         reviewer_name := PersonaInfo.reviewer_name persona_info;
         reviewer_persona := PersonaInfo.reviewer_persona persona_info;
         reviewer_age := PersonaInfo.reviewer_age persona_info;
         reviewer_location := PersonaInfo.reviewer_location persona_info;
         review_date := review_date |}.

(** [for _ in range(n_reviews)]: append a record, then count it. *)
Fixpoint reviews_loop (args : Args) (pid : Z) (pname pcat : string) (n : nat)
  (rows_out : list Review) (review_id_counter : Z) : Gen (list Review * Z) :=
  match n with
  | O => ret (rows_out, review_id_counter)
  | S n' =>
      r <- make_review args pid pname pcat review_id_counter ;;
      reviews_loop args pid pname pcat n' (List.app rows_out [r])
                   (review_id_counter + 1)%Z
  end.

(** The body of [for _, p_row in df_batch.iterrows()]. *)
Definition product_reviews (args : Args) (has_category : bool) (p_row : ProductRow)
  (rows_out : list Review) (review_id_counter : Z) : Gen (list Review * Z) :=
  let pid := row_id p_row in
  let pname := row_name p_row in
  let pcat := provided_or_derived has_category p_row in
  let pcat := known_or_general pcat in
  n_reviews <- choose_num_reviews (max_reviews_per_product args) ;;
  reviews_loop args pid pname pcat (Z.to_nat n_reviews) rows_out review_id_counter.

(** [for _, p_row in df_batch.iterrows()] *)
Fixpoint iterrows (args : Args) (has_category : bool) (rows : list ProductRow)
  (rows_out : list Review) (review_id_counter : Z) : Gen (list Review * Z) :=
  match rows with
  | [] => ret (rows_out, review_id_counter)
  | p_row :: rest =>
      '(rows_out, review_id_counter) <-
        product_reviews args has_category p_row rows_out review_id_counter ;;
      iterrows args has_category rest rows_out review_id_counter
  end.

(** The locals of [main] that outlive a batch, and the calls made on
    the output so far. [parquet_writer] tells whether the writer is
    open. *)
Record State : Type := {
  rng : Rng;
  review_id_counter : Z;
  csv_header_written : bool;
  parquet_writer : bool;
  written : list Write
}.

(** The body of [for df_batch in iter_products_from_parquet(...)], from
    a non-empty [rows_out] on: the batch is written. *)
Definition flush (args : Args) (out_is_csv : bool) (rows_out : list Review)
  (st : State) : State :=
  if out_is_csv then
    {| rng := rng st;
       review_id_counter := review_id_counter st;
       csv_header_written := true;
       parquet_writer := parquet_writer st;
       written := List.app (written st)
                    [to_csv (output args) (negb (csv_header_written st)) rows_out] |}
  else
    {| rng := rng st;
       review_id_counter := review_id_counter st;
       csv_header_written := csv_header_written st;
       parquet_writer := true;
       written := List.app (written st)
                    (List.app (if parquet_writer st then []
                               else [ParquetWriter (output args)])
                              [write_table rows_out]) |}.

(** [for df_batch in iter_products_from_parquet(...)]. An exception
    ends the run; what was written before it stays written, and the state
    returned with it is the one the failing batch started from. *)
Fixpoint batches_loop (args : Args) (out_is_csv : bool) (batches : list Batch)
  (st : State) : State * option Exn :=
  match batches with
  | [] => (st, None)
  | df_batch :: rest =>
      let has_category :=
        existsb (String.eqb (category_column args)) (columns df_batch) in
      match iterrows args has_category (batch_rows df_batch) []
                     (review_id_counter st) (rng st) with
      | Raise e => (st, Some e)
      | Ok ((rows_out, counter), g) =>
          let st := {| rng := g;
                       review_id_counter := counter;
                       csv_header_written := csv_header_written st;
                       parquet_writer := parquet_writer st;
                       written := written st |} in
          match rows_out with
          | [] => batches_loop args out_is_csv rest st
          | _ => batches_loop args out_is_csv rest (flush args out_is_csv rows_out st)
          end
      end
  end.

(** [main] on the product file [pf] found at [args.input_parquet]:
    the final state and the exception that ended the run, if any. *)
Definition main (args : Args) (pf : ParquetFile) : State * option Exn :=
  let g := default_rng (seed args) in
  let out_is_parquet := endswith (lower (output args)) ".parquet" in
  let out_is_csv := endswith (lower (output args)) ".csv" in
  let st := {| rng := g;
               review_id_counter := 1;
               csv_header_written := false;
               parquet_writer := false;
               written := [] |} in
  if negb (out_is_parquet || out_is_csv) then (st, Some ValueError)
  else
    match batches_loop args out_is_csv
            (iter_products_from_parquet pf (id_column args) (name_column args)
               (category_column args) (batch_size args))
            st with
    | (st, Some e) => (st, Some e)
    | (st, None) =>
        (if parquet_writer st then
           {| rng := rng st;
              review_id_counter := review_id_counter st;
              csv_header_written := csv_header_written st;
              parquet_writer := parquet_writer st;
              written := List.app (written st) [close] |}
         else st, None)
    end.

(** The review records of the output, in the order they were written. *)
Definition emitted (st : State) : list Review :=
  flat_map rows_of (written st).

End Run.

End Generate_Reviews.

(** ** A concrete bit generator

    SplitMix64, to run the generators on. *)

Module SplitMix.

Local Open Scope N_scope.

Definition wrap (x : N) : N := x mod 2 ^ 64.

Definition mix (z : N) : N :=
  let z := wrap (N.lxor z (N.shiftr z 30) * 13787848793156543929) in
  let z := wrap (N.lxor z (N.shiftr z 27) * 10723151780598845931) in
  N.lxor z (N.shiftr z 31).

Definition next (s : N) : N * N :=
  let s := wrap (s + 11400714819323198485) in
  (mix s, s).

#[export] Instance bit_generator : Np.BitGenerator N := {|
  Np.default_rng := fun seed => Z.to_N (Z.abs seed);
  Np.next_uint64 := next
|}.

End SplitMix.
Export SplitMix.

(** * What the specification states

    The predicates the statements below are written with, and inputs to
    run the generators on. *)

Import Np.

(** A probability vector over the five ratings, and a distribution with no
    empty bucket. *)
Definition base_distribution (p : list Q) : Prop :=
  List.length p = 5%nat /\ Forall (fun x => 0 <= x)%Q p /\ (sum p == 1)%Q.

Definition valid_distribution (p : list Q) : Prop :=
  Forall (fun x => 0 < x)%Q p /\ (sum p == 1)%Q.





(** Whether the batches of a run carry the category column. *)
Definition has_category_column (args : Generate_Reviews.Args) : bool :=
  existsb (String.eqb (Generate_Reviews.category_column args))
          (Generate_Reviews.columns_to_read (Generate_Reviews.id_column args)
             (Generate_Reviews.name_column args) (Generate_Reviews.category_column args)).

(** A review record that copies the id and the name of the row [p] and
    carries the category the run gives [p]. *)
Definition review_of (has_category : bool) (p : Generate_Reviews.ProductRow)
  (r : Generate_Reviews.Review) : Prop :=
  Generate_Reviews.product_id r = Generate_Reviews.row_id p
  /\ Generate_Reviews.product_name r = Generate_Reviews.row_name p
  /\ Generate_Reviews.product_category r
     = Generate_Reviews.known_or_general
         (Generate_Reviews.provided_or_derived has_category p).

(** What one pass of a loop adds to [rows_out]: records numbered from the
    counter on, each satisfying [P]. *)
Definition appends (P : Generate_Reviews.Review -> Prop)
  (rows_out : list Generate_Reviews.Review) (c : Z)
  (rows' : list Generate_Reviews.Review) (c' : Z) : Prop :=
  exists new, rows' = (rows_out ++ new)%list
              /\ map Generate_Reviews.review_id new = arange c c'
              /\ c' = (c + Z.of_nat (List.length new))%Z
              /\ Forall P new.

(** A review record made for a row of one of the batches. *)
Definition from_batches (args : Generate_Reviews.Args)
  (batches : list Generate_Reviews.Batch) (r : Generate_Reviews.Review) : Prop :=
  exists b p,
    In b batches /\ In p (Generate_Reviews.batch_rows b)
    /\ review_of (existsb (String.eqb (Generate_Reviews.category_column args))
                          (Generate_Reviews.columns b)) p r.

(** What holds of the output between two batches: the ids written so far
    are 1, 2, ... up to the counter, and each record comes from a row. *)
Definition run_invariant {Rng : Type} (args : Generate_Reviews.Args)
  (batches : list Generate_Reviews.Batch) (st : Generate_Reviews.State (Rng:=Rng))
  : Prop :=
  map Generate_Reviews.review_id (Generate_Reviews.emitted st)
  = arange 1 (Generate_Reviews.review_id_counter st)
  /\ (1 <= Generate_Reviews.review_id_counter st)%Z
  /\ Forall (from_batches args batches) (Generate_Reviews.emitted st).

(** The product categories that are keys of the bias table, and the others. *)
Definition biased_categories : list string :=
  filter (dict_mem String.eqb Generate_Reviews.CATEGORY_BIASES)
         (dict_keys Generate_Products.CATEGORY_PRODUCTS).

Definition unbiased_categories : list string :=
  filter (fun c => negb (dict_mem String.eqb Generate_Reviews.CATEGORY_BIASES c))
         (dict_keys Generate_Products.CATEGORY_PRODUCTS).

(** Inputs to run the generators on. *)
Module Example.

Local Open Scope string_scope.



Definition product_file : Generate_Reviews.ParquetFile :=
  {| Generate_Reviews.row_groups :=
       [ [ {| Generate_Reviews.row_id := 1;
              Generate_Reviews.row_name := "Anker Pro Hardcover Notebook Dotted";
              Generate_Reviews.row_category := Some "Books" |};
           {| Generate_Reviews.row_id := 2;
              Generate_Reviews.row_name := "Ring Smart Thermostat - White";
              Generate_Reviews.row_category := Some "Smart Home" |};
           {| Generate_Reviews.row_id := 3;
              Generate_Reviews.row_name := "Sony Upgraded Casual Loafers";
              Generate_Reviews.row_category := None |} ] ] |}.

Definition review_args : Generate_Reviews.Args :=
  {| Generate_Reviews.input_parquet := "products.parquet";
     Generate_Reviews.id_column := "id";
     Generate_Reviews.name_column := "product_name";
     Generate_Reviews.category_column := "product_category";
     Generate_Reviews.output := "reviews.csv";
     Generate_Reviews.max_reviews_per_product := 3;
     Generate_Reviews.batch_size := 2;
     Generate_Reviews.seed := 42;
     Generate_Reviews.years_back := 3 |}.


Definition strftime (t : Z) : string := "2026-01-01 12:00:00 AM".

Definition now_at (k : Z) : Z := (1767225600000000 + k)%Z.

(** A text one character over the cap. *)
Definition long_text : string :=
  string_of_list_ascii (repeat "a"%char (Z.to_nat 100001)).

End Example.

(** * Further properties of the generators

    What the properties proved in the last part of the file are stated
    with. *)

Section Properties.
Local Open Scope string_scope.










(** What [sample_persona] returns is drawn from one persona of the table:
    a first and a last name of its pools, its label, an age within its
    range, ends included, one of its locations, and its focus. *)
Definition persona_consistent (info : Generate_Reviews.PersonaInfo.t) : Prop :=
  exists p,
    In p Generate_Reviews.PERSONAS
    /\ (exists first last,
          In first (Generate_Reviews.first_names p)
          /\ In last (Generate_Reviews.last_names p)
          /\ Generate_Reviews.PersonaInfo.reviewer_name info = first ++ " " ++ last)
    /\ Generate_Reviews.PersonaInfo.reviewer_persona info = Generate_Reviews.persona p
    /\ (fst (Generate_Reviews.age_range p)
        <= Generate_Reviews.PersonaInfo.reviewer_age info
        <= snd (Generate_Reviews.age_range p))%Z
    /\ In (Generate_Reviews.PersonaInfo.reviewer_location info)
          (Generate_Reviews.locations p)
    /\ Generate_Reviews.PersonaInfo.persona_focus info = Generate_Reviews.focus p.

(** What every review record of an output satisfies. *)
Definition review_well_formed (r : Generate_Reviews.Review) : Prop :=
  (1 <= Generate_Reviews.rating r <= 5)%Z
  /\ dict_mem String.eqb Generate_Reviews.CATEGORY_BIASES
              (Generate_Reviews.product_category r) = true
  /\ (Z.of_nat (String.length (Generate_Reviews.review_text r))
      <= Generate_Reviews.MAX_REVIEW_CHARS)%Z
  /\ exists info,
       persona_consistent info
       /\ Generate_Reviews.reviewer_name r
          = Generate_Reviews.PersonaInfo.reviewer_name info
       /\ Generate_Reviews.reviewer_persona r
          = Generate_Reviews.PersonaInfo.reviewer_persona info
       /\ Generate_Reviews.reviewer_age r
          = Generate_Reviews.PersonaInfo.reviewer_age info
       /\ Generate_Reviews.reviewer_location r
          = Generate_Reviews.PersonaInfo.reviewer_location info.


(** The calls a run makes on a delimited-text output: none, or appends of
    which the first, and only the first, writes the header; no append is
    without rows. *)
Definition csv_trace (path : string) (ws : list Generate_Reviews.Write) : Prop :=
  ws = []
  \/ exists first rest,
       ws = Generate_Reviews.to_csv path true first
            :: map (Generate_Reviews.to_csv path false) rest
       /\ Forall (fun rows_out => rows_out <> []) (first :: rest).

(** The calls a run makes on a Parquet output: none, or the writer opened
    once, then one table or more, none without rows, then the writer
    closed when [closed]. *)
Definition parquet_trace (path : string) (closed : bool)
  (ws : list Generate_Reviews.Write) : Prop :=
  ws = []
  \/ exists first rest,
       ws = (Generate_Reviews.ParquetWriter path
             :: Generate_Reviews.write_table first
             :: map Generate_Reviews.write_table rest
             ++ (if closed then [Generate_Reviews.close] else []))%list
       /\ Forall (fun rows_out => rows_out <> []) (first :: rest).

(** Between two batches of a run that writes delimited text, and of one
    that writes Parquet: the flags of the state tell what was written. *)
Definition csv_state {Rng : Type} (path : string)
  (st : Generate_Reviews.State (Rng:=Rng)) : Prop :=
  Generate_Reviews.parquet_writer st = false
  /\ if Generate_Reviews.csv_header_written st
     then exists first rest,
         Generate_Reviews.written st
         = Generate_Reviews.to_csv path true first
           :: map (Generate_Reviews.to_csv path false) rest
         /\ Forall (fun rows_out => rows_out <> []) (first :: rest)
     else Generate_Reviews.written st = [].

Definition parquet_state {Rng : Type} (path : string)
  (st : Generate_Reviews.State (Rng:=Rng)) : Prop :=
  if Generate_Reviews.parquet_writer st
  then exists first rest,
      Generate_Reviews.written st
      = Generate_Reviews.ParquetWriter path
        :: Generate_Reviews.write_table first
        :: map Generate_Reviews.write_table rest
      /\ Forall (fun rows_out => rows_out <> []) (first :: rest)
  else Generate_Reviews.written st = [].

(** A loop started with records in [rows_out] is the loop started with
    none, with [rows_out] put before what it returns. *)
Definition put_before {Rng : Type} (rows_out : list Generate_Reviews.Review)
  (r : Result (list Generate_Reviews.Review * Z * Rng))
  : Result (list Generate_Reviews.Review * Z * Rng) :=
  match r with
  | Ok ((new, c), g) => Ok ((rows_out ++ new)%list, c, g)
  | Raise e => Raise e
  end.

(** The share of a group of ratings that a bias moves: half the bias, kept
    within 0.15 either way. *)
Definition rating_shift (bias : Q) : Q := max (min (bias * 0.5) 0.15) (-0.15).

(** The product ids of an output in which the product rows come in the
    order of [rows], the row at index i with [counts] i reviews. *)
Fixpoint product_ids_in_order (rows : list Generate_Reviews.ProductRow)
  (counts : list nat) : list Z :=
  match rows, counts with
  | p :: rows', k :: counts' =>
      (repeat (Generate_Reviews.row_id p) k ++ product_ids_in_order rows' counts')%list
  | _, _ => []
  end.

(** A command line that asks for up to six reviews for a product. *)
Definition six_review_args : Generate_Reviews.Args :=
  {| Generate_Reviews.input_parquet := "products.parquet";
     Generate_Reviews.id_column := "id";
     Generate_Reviews.name_column := "product_name";
     Generate_Reviews.category_column := "product_category";
     Generate_Reviews.output := "reviews.csv";
     Generate_Reviews.max_reviews_per_product := 6;
     Generate_Reviews.batch_size := 2;
     Generate_Reviews.seed := 42;
     Generate_Reviews.years_back := 3 |}.

End Properties.

(** * Proofs *)

(** ** Sums, clipping and normalising *)

Section NumpyFacts.
Local Open Scope Q_scope.

Lemma Qlt_bool_iff (x y : Q) : Qlt_bool x y = true <-> x < y.
Proof.
  unfold Qlt_bool. rewrite negb_true_iff.
  split; intro Hxy.
  - apply Qnot_le_lt. intro Hle. apply Qle_bool_iff in Hle. congruence.
  - destruct (Qle_bool y x) eqn:E; [|reflexivity].
    apply Qle_bool_iff in E. exfalso. exact (Qlt_not_le _ _ Hxy E).
Qed.

Lemma Qlt_bool_false_iff (x y : Q) : Qlt_bool x y = false <-> y <= x.
Proof.
  unfold Qlt_bool. rewrite negb_false_iff. apply Qle_bool_iff.
Qed.

Lemma fold_left_Qplus_acc (l : list Q) (a : Q) :
  fold_left Qplus l a == a + fold_left Qplus l 0.
Proof.
  revert a. induction l as [|x l IH]; intro a; simpl.
  - ring.
  - rewrite (IH (a + x)), (IH (0 + x)). ring.
Qed.

Lemma sum_cons (x : Q) (l : list Q) : sum (x :: l) == x + sum l.
Proof.
  unfold sum. simpl. rewrite fold_left_Qplus_acc. ring.
Qed.

Lemma sum_nil : sum [] == 0.
Proof. reflexivity. Qed.

Lemma sum_positive (l : list Q) :
  l <> [] -> Forall (fun x => 0 < x) l -> 0 < sum l.
Proof.
  induction l as [|x l IH]; intros Hne Hall; [congruence|].
  inversion Hall as [|? ? Hx Hl]; subst.
  rewrite sum_cons.
  destruct l as [|y l'].
  - rewrite sum_nil. rewrite Qplus_0_r. exact Hx.
  - assert (0 < sum (y :: l')) by (apply IH; [discriminate|assumption]).
    rewrite <- (Qplus_0_r 0). apply Qplus_lt_le_compat; [assumption|].
    apply Qlt_le_weak. assumption.
Qed.

Lemma sum_div_all (l : list Q) (d : Q) : sum (div_all l d) == sum l / d.
Proof.
  induction l as [|x l IH].
  - unfold div_all; simpl. unfold sum; simpl. unfold Qdiv. ring.
  - unfold div_all in *. simpl. rewrite !sum_cons, IH. unfold Qdiv. ring.
Qed.

Lemma clip_at_least (x lo hi : Q) : lo <= hi -> lo <= min (max x lo) hi.
Proof.
  intro Hlh. unfold min, max.
  destruct (Qlt_bool x lo) eqn:E1.
  - destruct (Qlt_bool hi lo) eqn:E2; [assumption|apply Qle_refl].
  - apply Qlt_bool_false_iff in E1.
    destruct (Qlt_bool hi x) eqn:E2; assumption.
Qed.

Lemma clip_positive (l : list Q) (lo hi : Q) :
  0 < lo -> lo <= hi -> Forall (fun x => 0 < x) (clip l lo hi).
Proof.
  intros Hlo Hlh. unfold clip. apply Forall_forall. intros y Hy.
  apply in_map_iff in Hy. destruct Hy as [x [<- _]].
  eapply Qlt_le_trans; [exact Hlo|]. apply clip_at_least. assumption.
Qed.

(** A vector of positive entries divided by its sum is a distribution. *)
Lemma normalised_positive (l : list Q) :
  l <> [] -> Forall (fun x => 0 < x) l ->
  Forall (fun x => 0 < x) (div_all l (sum l)) /\ sum (div_all l (sum l)) == 1.
Proof.
  intros Hne Hall.
  pose proof (sum_positive l Hne Hall) as Hs.
  split.
  - unfold div_all. apply Forall_forall. intros y Hy.
    apply in_map_iff in Hy. destruct Hy as [x [<- Hx]].
    rewrite Forall_forall in Hall.
    apply Qlt_shift_div_l; [assumption|]. rewrite Qmult_0_l. auto.
  - rewrite sum_div_all. field. intro Hz. rewrite Hz in Hs.
    exact (Qlt_irrefl _ Hs).
Qed.
End NumpyFacts.

(** ** The rating distribution adjuster: C1 *)

Section RatingAdjuster.
Import Generate_Reviews.
Local Open Scope Q_scope.

Lemma adjust_probs_shape (bias a b c d e : Q) :
  Qeq_bool bias 0 = false ->
  exists probs,
    List.length probs = 5%nat /\
    adjust_probs bias [a; b; c; d; e]
    = Ok (div_all (clip probs 1e-6 1.0) (sum (clip probs 1e-6 1.0))).
Proof.
  intro Hb. unfold adjust_probs. rewrite Hb.
  cbn [bind getitem setitem nth_error Nat.ltb Nat.leb List.length firstn skipn app].
  repeat match goal with
         | |- context [if ?t then _ else _] => destruct t
         end;
    cbn [bind getitem setitem nth_error Nat.ltb Nat.leb List.length firstn skipn app];
    eexists; (split; [|reflexivity]); reflexivity.
Qed.

Lemma clip_length (l : list Q) (lo hi : Q) : List.length (clip l lo hi) = List.length l.
Proof. unfold clip. apply length_map. Qed.

(** C1, as the code has it: for a bias in [-1, 1] other than 0 and a base
    vector of five probabilities summing to 1, the adjuster returns five
    strictly positive entries that sum to 1; for the bias 0 it returns the
    base vector as it is, empty buckets included. *)
Theorem adjust_probs_valid_unless_neutral (bias : Q) (base_probs : list Q) :
  -1 <= bias <= 1 ->
  base_distribution base_probs ->
  (~ bias == 0 ->
   exists probs, adjust_probs bias base_probs = Ok probs
                 /\ List.length probs = 5%nat
                 /\ valid_distribution probs)
  /\ (bias == 0 -> adjust_probs bias base_probs = Ok base_probs).
Proof.
  intros _ [Hlen _]. split.
  - intro Hnz.
    assert (Hb : Qeq_bool bias 0 = false).
    { destruct (Qeq_bool bias 0) eqn:E; [|reflexivity].
      apply Qeq_bool_iff in E. contradiction. }
    destruct base_probs as [|a [|b [|c [|d [|e [|? ?]]]]]]; try discriminate.
    destruct (adjust_probs_shape bias a b c d e Hb) as [probs [Hp Heq]].
    rewrite Heq. eexists. split; [reflexivity|].
    assert (Hne : clip probs 1e-6 1.0 <> []).
    { intro Hnil. apply (f_equal (@List.length Q)) in Hnil.
      rewrite clip_length, Hp in Hnil. discriminate. }
    assert (Hpos : Forall (fun x => 0 < x) (clip probs 1e-6 1.0)).
    { apply clip_positive; [reflexivity|discriminate]. }
    split.
    + unfold div_all. rewrite length_map, clip_length. exact Hp.
    + exact (normalised_positive _ Hne Hpos).
  - intro Hz. unfold adjust_probs.
    apply Qeq_bool_iff in Hz. rewrite Hz. reflexivity.
Qed.
End RatingAdjuster.

(** ** Computations that always return *)

Section GenFacts.
Context {Rng : Type} `{BitGenerator Rng}.
Local Open Scope Q_scope.

Lemma always_ret {A : Type} (a : A) (P : A -> Prop) : P a -> always Rng (ret a) P.
Proof. intros Ha g. exists a, g. split; [reflexivity|assumption]. Qed.

Lemma always_bind {A B : Type} (m : Gen A) (k : A -> Gen B)
  (P : A -> Prop) (Q : B -> Prop) :
  always Rng m P -> (forall x, P x -> always Rng (k x) Q) -> always Rng (gbind m k) Q.
Proof.
  intros Hm Hk g. destruct (Hm g) as [x [g1 [Em Px]]].
  destruct (Hk x Px g1) as [y [g2 [Ek Qy]]].
  exists y, g2. unfold gbind. rewrite Em. split; assumption.
Qed.

Lemma always_weaken {A : Type} (m : Gen A) (P Q : A -> Prop) :
  always Rng m P -> (forall x, P x -> Q x) -> always Rng m Q.
Proof.
  intros Hm HPQ g. destruct (Hm g) as [x [g' [E Px]]].
  exists x, g'. split; [assumption|auto].
Qed.

Lemma always_lift {A : Type} (a : A) (P : A -> Prop) : P a -> always Rng (lift (Ok a)) P.
Proof. intros Ha g. exists a, g. split; [reflexivity|assumption]. Qed.

Lemma random_range : always Rng random (fun u => 0 <= u /\ u < 1).
Proof.
  intro g. unfold random. destruct (next_uint64 g) as [w g'].
  eexists _, g'. split; [reflexivity|].
  assert (Hb : (0 <= Z.of_N ((w mod 2 ^ 64) / 2 ^ 11) < 2 ^ 53)%Z).
  { split; [apply N2Z.is_nonneg|].
    change (2 ^ 53)%Z with (Z.of_N (2 ^ 53)). apply N2Z.inj_lt.
    apply N.Div0.div_lt_upper_bound.
    change (2 ^ 11 * 2 ^ 53)%N with (2 ^ 64)%N.
    apply N.mod_lt. discriminate. }
  unfold Qle, Qlt. simpl Qnum. simpl Qden.
  change (Z.pos (2 ^ 53)) with (2 ^ 53)%Z. lia.
Qed.

Lemma integers_range (low high : Z) :
  (low < high)%Z -> always Rng (integers low high) (fun k => (low <= k < high)%Z).
Proof.
  intros Hlh g. unfold integers.
  destruct (high <=? low)%Z eqn:E; [apply Z.leb_le in E; lia|].
  destruct (next_uint64 g) as [w g'].
  eexists _, g'. split; [reflexivity|].
  pose proof (Z.mod_pos_bound (Z.of_N w) (high - low)). lia.
Qed.


Lemma choice_in {A : Type} (a : list A) :
  a <> [] -> always Rng (choice a) (fun x => In x a).
Proof.
  intro Hne. unfold choice.
  eapply always_bind.
  - apply integers_range. destruct a; [congruence|]. simpl List.length. lia.
  - intros i Hi. simpl in Hi.
    destruct (nth_error a (Z.to_nat i)) as [x|] eqn:E.
    + apply always_ret. eapply nth_error_In; eassumption.
    + apply nth_error_None in E. lia.
Qed.



End GenFacts.

(** ** The weighted choice *)

Section ChoiceFacts.
Context {Rng : Type} `{BitGenerator Rng}.
Local Open Scope Q_scope.

Lemma searchsorted_right_lt (a : list Q) (v : Q) :
  a <> [] -> Qle_bool (last a 0) v = false ->
  (searchsorted_right a v < List.length a)%nat.
Proof.
  induction a as [|x a IH]; intros Hne Hlast; [congruence|].
  simpl. destruct (Qle_bool x v) eqn:E; [|lia].
  destruct a as [|y a'].
  - simpl in Hlast. congruence.
  - apply -> Nat.succ_lt_mono. apply IH; [discriminate|exact Hlast].
Qed.

Lemma last_cumsum_from (acc : Q) (p : list Q) :
  p <> [] -> last (cumsum_from acc p) 0 == acc + sum p.
Proof.
  revert acc. induction p as [|x p IH]; intros acc Hne; [congruence|].
  destruct p as [|y p'].
  - simpl. rewrite sum_cons, sum_nil. ring.
  - change (last (cumsum_from acc (x :: y :: p')) 0)
      with (last (cumsum_from (acc + x) (y :: p')) 0).
    rewrite IH by discriminate. rewrite (sum_cons x). ring.
Qed.

Lemma cumsum_from_length (acc : Q) (p : list Q) :
  List.length (cumsum_from acc p) = List.length p.
Proof.
  revert acc. induction p as [|x p IH]; intro acc; simpl; [reflexivity|].
  rewrite IH. reflexivity.
Qed.

Lemma last_div_all (l : list Q) (d : Q) :
  l <> [] -> last (div_all l d) 0 = last l 0 / d.
Proof.
  induction l as [|x l IH]; intro Hne; [congruence|].
  destruct l as [|y l']; [reflexivity|].
  change (last (div_all (x :: y :: l') d) 0) with (last (div_all (y :: l') d) 0).
  rewrite IH by discriminate. reflexivity.
Qed.

Lemma existsb_negative_false (p : list Q) :
  Forall (fun x => 0 <= x) p -> existsb (fun x => Qlt_bool x 0) p = false.
Proof.
  induction 1 as [|x p Hx Hp IH]; simpl; [reflexivity|].
  rewrite IH, orb_false_r. apply Qlt_bool_false_iff. assumption.
Qed.

(** With weights that form a distribution over its entries, a weighted
    choice returns one of the entries. *)
Lemma choice_p_in {A : Type} (a : list A) (p : list Q) :
  List.length a = List.length p -> p <> [] ->
  Forall (fun x => 0 <= x) p -> sum p == 1 ->
  always Rng (choice_p a p) (fun x => In x a).
Proof.
  intros Hlen Hne Hnn Hsum. unfold choice_p.
  rewrite Hlen, Nat.eqb_refl. simpl negb. cbv iota.
  rewrite (existsb_negative_false p Hnn).
  assert (Hs : Qeq_bool (sum p) 1 = true) by (apply Qeq_bool_iff; assumption).
  rewrite Hs. simpl negb. cbv iota.
  eapply always_bind; [apply random_range|].
  intros u [Hu0 Hu1]. cbv zeta.
  assert (Hc : cumsum p <> []).
  { intro Hnil. apply (f_equal (@List.length Q)) in Hnil.
    unfold cumsum in Hnil. rewrite cumsum_from_length in Hnil.
    destruct p; [congruence|discriminate]. }
  assert (Hl : last (cumsum p) 0 == 1).
  { unfold cumsum. rewrite last_cumsum_from by assumption. rewrite Hsum. ring. }
  assert (Hlt : (searchsorted_right (div_all (cumsum p) (last (cumsum p) 0%Q)) u
                 < List.length a)%nat).
  { replace (List.length a)
      with (List.length (div_all (cumsum p) (last (cumsum p) 0))).
    2:{ unfold div_all, cumsum. rewrite length_map, cumsum_from_length. auto. }
    apply searchsorted_right_lt.
    - intro Hnil. apply (f_equal (@List.length Q)) in Hnil.
      unfold div_all in Hnil. rewrite length_map in Hnil.
      destruct (cumsum p); [congruence|discriminate].
    - rewrite last_div_all by assumption.
      destruct (Qle_bool (last (cumsum p) 0 / last (cumsum p) 0) u) eqn:E;
        [|reflexivity].
      apply Qle_bool_iff in E. exfalso.
      assert (Hone : last (cumsum p) 0 / last (cumsum p) 0 == 1).
      { rewrite Hl. reflexivity. }
      rewrite Hone in E. exact (Qlt_not_le _ _ Hu1 E). }
  destruct (nth_error a _) as [x|] eqn:E.
  - apply always_ret. eapply nth_error_In; eassumption.
  - apply nth_error_None in E. lia.
Qed.

Lemma in_range (n k : Z) : In k (range n) <-> (0 <= k < n)%Z.
Proof.
  unfold range. rewrite in_map_iff. split.
  - intros [i [<- Hi]]. apply in_seq in Hi. lia.
  - intros Hk. exists (Z.to_nat k). split; [lia|]. apply in_seq. lia.
Qed.

Lemma range_length (n : Z) : List.length (range n) = Z.to_nat n.
Proof. unfold range. rewrite length_map, length_seq. reflexivity. Qed.
End ChoiceFacts.

(** ** The review count sampler: C4 *)

Section ReviewCount.
Context {Rng : Type} `{BitGenerator Rng}.
Import Generate_Reviews.
Local Open Scope Q_scope.

Lemma review_count_weights_distribution (M : Z) :
  (0 <= M <= 5)%Z ->
  List.length (review_count_weights M) = Z.to_nat (M + 1)
  /\ Forall (fun x => 0 <= x) (review_count_weights M)
  /\ sum (review_count_weights M) == 1.
Proof.
  intro HM.
  assert (Hc : M = 0%Z \/ M = 1%Z \/ M = 2%Z \/ M = 3%Z \/ M = 4%Z \/ M = 5%Z) by lia.
  destruct Hc as [-> | [-> | [-> | [-> | [-> | ->]]]]];
    (split; [reflexivity|]; split; [|reflexivity]);
    repeat constructor; discriminate.
Qed.

(** C4, as the code has it: for a maximum M from 0 to 5 the sampler
    returns a count in [0, M], drawn with the first M + 1 entries of the
    weight table divided by their sum; the weights drawn with sum to 1, and
    the table decreases from its second entry on. *)
Theorem choose_num_reviews_up_to_five (M : Z) (g : Rng) :
  (0 <= M <= 5)%Z ->
  (exists k g', choose_num_reviews M g = Ok (k, g') /\ (0 <= k <= M)%Z)
  /\ review_count_weights M
     = div_all (firstn (Z.to_nat (M + 1)) REVIEW_COUNT_WEIGHTS)
               (sum (firstn (Z.to_nat (M + 1)) REVIEW_COUNT_WEIGHTS))
  /\ List.length (review_count_weights M) = Z.to_nat (M + 1)
  /\ sum (review_count_weights M) == 1
  /\ StronglySorted (fun x y => y < x) (tl REVIEW_COUNT_WEIGHTS).
Proof.
  intro HM.
  destruct (review_count_weights_distribution M HM) as [Hlen [Hnn Hsum]].
  split; [|split; [|split; [|split]]]; try assumption.
  - unfold choose_num_reviews.
    destruct (M <? 1)%Z eqn:E.
    + exists 0%Z, g. split; [reflexivity|lia].
    + apply Z.ltb_ge in E.
      destruct (choice_p_in (range (M + 1)) (review_count_weights M)) with (g := g)
        as [k [g' [Ek Hk]]]; try assumption.
      * rewrite range_length. auto.
      * intro Hnil. rewrite Hnil in Hlen. simpl in Hlen. lia.
      * exists k, g'. split; [assumption|]. apply in_range in Hk. lia.
  - unfold review_count_weights, slice_to.
    destruct (M + 1 <? 0)%Z eqn:E; [apply Z.ltb_lt in E; lia|reflexivity].
  - simpl. repeat constructor.
Qed.

Lemma choose_num_reviews_zero (g : Rng) : choose_num_reviews 0 g = Ok (0%Z, g).
Proof. reflexivity. Qed.
End ReviewCount.

(** C4 fails as stated: with the maximum 6 the sampler raises, the table
    having six weights for seven outcomes; and the table does not decrease,
    the weight of 0 reviews being below the weight of 1. *)
Lemma choose_num_reviews_above_five_raises :
  (0 <= 6)%Z
  /\ Generate_Reviews.choose_num_reviews 6 (default_rng 42 : N) = Raise ValueError
  /\ (nth 0 (Generate_Reviews.review_count_weights 5) 0
      < nth 1 (Generate_Reviews.review_count_weights 5) 0)%Q.
Proof.
  split; [lia|]. split; reflexivity.
Qed.

Lemma choose_num_reviews_up_to_five_witness :
  (0 <= 3 <= 5)%Z
  /\ exists k g', Generate_Reviews.choose_num_reviews 3 (default_rng 42 : N) = Ok (k, g')
                  /\ (0 <= k <= 3)%Z.
Proof.
  split; [lia|].
  apply (choose_num_reviews_up_to_five 3 (default_rng 42 : N)). lia.
Defined.

(** ** Rounding *)

Section Rounding.
Local Open Scope Q_scope.




End Rounding.

(** ** Lists, dictionaries and ranges *)

Section PythonFacts.




Lemma arange_length (a b : Z) : List.length (arange a b) = Z.to_nat (b - a).
Proof. unfold arange. rewrite length_map, length_seq. reflexivity. Qed.


Lemma arange_sorted_from (a : Z) (start n : nat) :
  StronglySorted Z.lt (map (fun i => (a + Z.of_nat i)%Z) (seq start n)).
Proof.
  revert start. induction n as [|n IH]; intro start; simpl; constructor.
  - apply IH.
  - apply Forall_forall. intros y Hy. apply in_map_iff in Hy.
    destruct Hy as [i [<- Hi]]. apply in_seq in Hi. lia.
Qed.

Lemma arange_sorted (a b : Z) : StronglySorted Z.lt (arange a b).
Proof. apply arange_sorted_from. Qed.

Lemma strictly_sorted_NoDup (l : list Z) : StronglySorted Z.lt l -> NoDup l.
Proof.
  induction 1 as [|x l Hs IH Hx]; constructor; [|assumption].
  intro Hin. rewrite Forall_forall in Hx. specialize (Hx x Hin). lia.
Qed.

Lemma map_seq_from {A : Type} (f : nat -> A) (start n : nat) :
  map f (seq start n) = map (fun i => f (start + i)%nat) (seq 0 n).
Proof.
  revert start. induction n as [|n IH]; intro start; [reflexivity|].
  simpl. rewrite Nat.add_0_r. f_equal.
  rewrite (IH (S start)), <- seq_shift, map_map.
  apply map_ext. intro i. f_equal. lia.
Qed.

Lemma arange_app (a b c : Z) :
  (a <= b <= c)%Z -> (arange a b ++ arange b c)%list = arange a c.
Proof.
  intro Habc. unfold arange.
  replace (Z.to_nat (c - a)) with (Z.to_nat (b - a) + Z.to_nat (c - b))%nat by lia.
  rewrite seq_app, map_app. f_equal. simpl.
  rewrite (map_seq_from _ (Z.to_nat (b - a))).
  apply map_ext. intro i. lia.
Qed.
End PythonFacts.

(** ** The product table builder *)

Section ProductFacts.
Context {Rng : Type} `{BitGenerator Rng}.
Import Generate_Products.
Local Open Scope Q_scope.









End ProductFacts.

(** ** The loops over reviews and product rows *)

Section ReviewRun.
Context {Rng : Type} `{BitGenerator Rng}.
Variable strftime : Z -> string.
Variable now_at : Z -> Z.
Import Generate_Reviews.

Lemma gbind_ok {A B : Type} (m : Gen A) (k : A -> Gen B) (g g2 : Rng) (y : B) :
  gbind m k g = Ok (y, g2) ->
  exists x g1, m g = Ok (x, g1) /\ k x g1 = Ok (y, g2).
Proof.
  unfold gbind. destruct (m g) as [[x g1]|e]; [|discriminate].
  intro Hk. exists x, g1. split; [reflexivity|assumption].
Qed.

Lemma make_review_fields (args : Args) (pid : Z) (pname pcat : string) (c : Z)
  (g g' : Rng) (r : Review) :
  make_review strftime now_at args pid pname pcat c g = Ok (r, g') ->
  review_id r = c /\ product_id r = pid /\ product_name r = pname
  /\ product_category r = pcat.
Proof.
  unfold make_review. intro Hr.
  apply gbind_ok in Hr. destruct Hr as [info [g1 [_ Hr]]].
  apply gbind_ok in Hr. destruct Hr as [rt [g2 [_ Hr]]].
  apply gbind_ok in Hr. destruct Hr as [txt [g3 [_ Hr]]].
  apply gbind_ok in Hr. destruct Hr as [date [g4 [_ Hr]]].
  unfold ret in Hr. inversion Hr; subst. simpl. auto.
Qed.

Lemma reviews_loop_appends (args : Args) (pid : Z) (pname pcat : string) (n : nat) :
  forall rows_out c g rows' c' g',
    reviews_loop strftime now_at args pid pname pcat n rows_out c g
    = Ok ((rows', c'), g') ->
    appends (fun r => product_id r = pid /\ product_name r = pname
                      /\ product_category r = pcat)
            rows_out c rows' c'
    /\ (c' = c + Z.of_nat n)%Z.
Proof.
  induction n as [|n IH]; intros rows_out c g rows' c' g' Hrun.
  - simpl in Hrun. unfold ret in Hrun. inversion Hrun; subst.
    split; [|lia]. exists []. rewrite app_nil_r.
    split; [reflexivity|]. split; [|split; [simpl; lia|constructor]].
    unfold arange. rewrite Z.sub_diag. reflexivity.
  - simpl in Hrun. apply gbind_ok in Hrun. destruct Hrun as [r [g1 [Hr Hrun]]].
    apply make_review_fields in Hr. destruct Hr as [Hid Hrest].
    apply IH in Hrun. destruct Hrun as [[new [Hrows [Hids [Hc' Hall]]]] Hn].
    split; [|lia]. exists (r :: new).
    split; [rewrite Hrows, <- app_assoc; reflexivity|].
    split.
    { simpl map. rewrite Hid, Hids.
      rewrite <- (arange_app c (c + 1) c') by lia. f_equal.
      unfold arange. replace (c + 1 - c)%Z with 1%Z by lia. simpl.
      f_equal. lia. }
    split; [simpl List.length; lia|].
    constructor; assumption.
Qed.

Lemma product_reviews_appends (args : Args) (has_category : bool) (p : ProductRow) :
  forall rows_out c g rows' c' g',
    product_reviews strftime now_at args has_category p rows_out c g
    = Ok ((rows', c'), g') ->
    appends (review_of has_category p) rows_out c rows' c'.
Proof.
  intros rows_out c g rows' c' g' Hrun. unfold product_reviews in Hrun.
  apply gbind_ok in Hrun. destruct Hrun as [n [g1 [_ Hrun]]].
  apply reviews_loop_appends in Hrun. exact (proj1 Hrun).
Qed.

Lemma appends_trans (P Q R : Review -> Prop) (rows0 rows1 rows2 : list Review)
  (c0 c1 c2 : Z) :
  (forall r, P r -> R r) -> (forall r, Q r -> R r) ->
  appends P rows0 c0 rows1 c1 -> appends Q rows1 c1 rows2 c2 ->
  appends R rows0 c0 rows2 c2.
Proof.
  intros HP HQ [new1 [E1 [I1 [C1 A1]]]] [new2 [E2 [I2 [C2 A2]]]].
  exists (new1 ++ new2)%list.
  split; [rewrite E2, E1, app_assoc; reflexivity|].
  split; [rewrite map_app, I1, I2; apply arange_app; lia|].
  split; [rewrite length_app; lia|].
  apply Forall_app. split; (eapply Forall_impl; [|eassumption]); assumption.
Qed.

Lemma iterrows_appends (args : Args) (has_category : bool) (rows : list ProductRow) :
  forall rows_out c g rows' c' g',
    iterrows strftime now_at args has_category rows rows_out c g
    = Ok ((rows', c'), g') ->
    appends (fun r => exists p, In p rows /\ review_of has_category p r)
            rows_out c rows' c'.
Proof.
  induction rows as [|p rows IH]; intros rows_out c g rows' c' g' Hrun.
  - simpl in Hrun. unfold ret in Hrun. inversion Hrun; subst.
    exists []. rewrite app_nil_r. split; [reflexivity|].
    split; [unfold arange; rewrite Z.sub_diag; reflexivity|].
    split; [simpl; lia|constructor].
  - simpl in Hrun. apply gbind_ok in Hrun.
    destruct Hrun as [[rows1 c1] [g1 [Hp Hrun]]].
    apply product_reviews_appends in Hp. apply IH in Hrun.
    eapply appends_trans; [| |exact Hp|exact Hrun].
    + intros r Hr. exists p. split; [left; reflexivity|assumption].
    + intros r [q [Hq Hr]]. exists q. split; [right; assumption|assumption].
Qed.
End ReviewRun.

(** ** The loop over batches *)

Section ReviewMain.
Context {Rng : Type} `{BitGenerator Rng}.
Variable strftime : Z -> string.
Variable now_at : Z -> Z.
Import Generate_Reviews.

Lemma emitted_flush (args : Args) (out_is_csv : bool) (rows_out : list Review)
  (st : State (Rng:=Rng)) :
  emitted (flush args out_is_csv rows_out st) = (emitted st ++ rows_out)%list
  /\ review_id_counter (flush args out_is_csv rows_out st) = review_id_counter st.
Proof.
  unfold flush, emitted.
  destruct out_is_csv; simpl; rewrite flat_map_app; simpl.
  - rewrite app_nil_r. auto.
  - destruct (parquet_writer st); simpl; rewrite app_nil_r; auto.
Qed.

Lemma batches_loop_invariant (args : Args) (out_is_csv : bool) (all : list Batch)
  (batches : list Batch) :
  forall st : State (Rng:=Rng),
    (forall b, In b batches -> In b all) ->
    run_invariant args all st ->
    run_invariant args all (fst (batches_loop strftime now_at args out_is_csv batches st)).
Proof.
  induction batches as [|b batches IH]; intros st Hsub Hinv; [exact Hinv|].
  simpl.
  destruct (iterrows strftime now_at args _ (batch_rows b) [] (review_id_counter st)
                     (rng st)) as [[[rows_out c] g]|e] eqn:Erun; [|exact Hinv].
  apply iterrows_appends in Erun.
  destruct Erun as [new [Hrows [Hids [Hc Hall]]]]. simpl in Hrows. subst rows_out.
  destruct Hinv as [Hinv_ids [Hinv_c Hinv_all]].
  assert (Hsub' : forall b', In b' batches -> In b' all)
    by (intros b' Hb'; apply Hsub; right; assumption).
  destruct new as [|r new].
  - apply IH; [assumption|].
    unfold run_invariant, emitted in *. simpl in *.
    replace c with (review_id_counter st) by lia. auto.
  - apply IH; [assumption|].
    unfold run_invariant.
    destruct (emitted_flush args out_is_csv (r :: new)
                {| rng := g; review_id_counter := c;
                   csv_header_written := csv_header_written st;
                   parquet_writer := parquet_writer st;
                   written := written st |}) as [-> ->].
    change (emitted {| rng := g; review_id_counter := c;
                       csv_header_written := csv_header_written st;
                       parquet_writer := parquet_writer st;
                       written := written st |}) with (emitted st).
    simpl review_id_counter.
    split; [|split].
    + rewrite map_app, Hinv_ids, Hids. apply arange_app. lia.
    + lia.
    + apply Forall_app. split; [assumption|].
      eapply Forall_impl; [|exact Hall].
      intros r' [p [Hp Hr']]. exists b, p.
      split; [apply Hsub; left; reflexivity|]. split; assumption.
Qed.

Lemma main_invariant (args : Args) (pf : ParquetFile) :
  run_invariant args
    (iter_products_from_parquet pf (id_column args) (name_column args)
       (category_column args) (batch_size args))
    (fst (main strftime now_at args pf)).
Proof.
  unfold main.
  set (st0 := {| rng := default_rng (seed args); review_id_counter := 1;
                 csv_header_written := false; parquet_writer := false;
                 written := [] |}).
  assert (H0 : forall all, run_invariant args all st0).
  { intro all. unfold run_invariant, st0, emitted. simpl.
    split; [reflexivity|]. split; [lia|constructor]. }
  destruct (negb _); [apply H0|].
  pose proof (batches_loop_invariant args (endswith (lower (output args)) ".csv")
                (iter_products_from_parquet pf (id_column args) (name_column args)
                   (category_column args) (batch_size args))
                _ st0 (fun b Hb => Hb) (H0 _)) as Hinv.
  destruct (batches_loop _ _ _ _ _ _) as [st [e|]]; simpl in *; [exact Hinv|].
  destruct (parquet_writer st); [|exact Hinv].
  unfold run_invariant, emitted in *. simpl.
  rewrite flat_map_app. simpl. rewrite app_nil_r. exact Hinv.
Qed.

Lemma chunk_from_rows {A : Type} (size : nat) (rows : list A) :
  forall room cur chunk p,
    In chunk (chunk_from size room cur rows) -> In p chunk -> In p cur \/ In p rows.
Proof.
  induction rows as [|r rows IH]; intros room cur chunk p Hc Hp; simpl in Hc.
  - destruct cur as [|c cur]; [contradiction|].
    destruct Hc as [<- | []]. left. apply in_rev. assumption.
  - destruct room as [|room].
    + destruct Hc as [<- | Hc].
      * left. apply in_rev. assumption.
      * destruct (IH _ _ _ _ Hc Hp) as [[<- | []] | Hr]; right; [left|right]; auto.
    + destruct (IH _ _ _ _ Hc Hp) as [[<- | Hcur] | Hr]; auto.
      * right. left. reflexivity.
      * right. right. assumption.
Qed.

Lemma chunk_from_concat {A : Type} (size : nat) (rows : list A) :
  forall room cur, List.concat (chunk_from size room cur rows) = (rev cur ++ rows)%list.
Proof.
  induction rows as [|r rows IH]; intros room cur; simpl.
  - destruct cur; simpl; rewrite ?app_nil_r; reflexivity.
  - destruct room; simpl; rewrite IH; simpl; [reflexivity|].
    rewrite <- app_assoc. reflexivity.
Qed.

(** Batching keeps every row, in order, whatever the batch size. *)
Lemma to_batches_concat {A : Type} (max_chunksize : Z) (rows : list A) :
  List.concat (to_batches max_chunksize rows) = rows.
Proof. unfold to_batches. apply chunk_from_concat. Qed.

Lemma iter_products_rows (pf : ParquetFile) (id_col name_col category_col : string)
  (batch_size : Z) (b : Batch) :
  In b (iter_products_from_parquet pf id_col name_col category_col batch_size) ->
  columns b = columns_to_read id_col name_col category_col
  /\ forall p, In p (batch_rows b) -> In p (List.concat (row_groups pf)).
Proof.
  unfold iter_products_from_parquet. intro Hb.
  apply in_flat_map in Hb. destruct Hb as [rg [Hrg Hb]].
  apply in_map_iff in Hb. destruct Hb as [rows [<- Hrows]]. simpl.
  split; [reflexivity|]. intros p Hp.
  apply in_concat. exists rg. split; [assumption|].
  destruct (chunk_from_rows _ _ _ _ _ _ Hrows Hp) as [[] | Hin]. assumption.
Qed.
End ReviewMain.

Local Open Scope string_scope.

(** ** The review run: C2, C7, C8, C9 *)

Section ReviewClaims.
Context {Rng : Type} `{BitGenerator Rng}.
Variable strftime : Z -> string.
Variable now_at : Z -> Z.
Import Generate_Reviews.

(** C2: over a whole run, whatever the batch size and the rest of the
    command line, the review ids written are 1, 2, 3, ... in the order they
    are written: strictly increasing and without repeats; and when the run
    ends without an exception the counter is one more than their number. *)
Theorem review_ids_count_up_from_one (args : Args) (pf : ParquetFile) :
  let st := fst (main strftime now_at args pf) in
  let ids := map review_id (emitted st) in
  ids = arange 1 (1 + Z.of_nat (List.length ids))
  /\ StronglySorted Z.lt ids
  /\ NoDup ids
  /\ (snd (main strftime now_at args pf) = None ->
      review_id_counter st = (1 + Z.of_nat (List.length ids))%Z).
Proof.
  intros st ids.
  destruct (main_invariant strftime now_at args pf) as [Hids [Hc _]].
  fold st in Hids, Hc. fold ids in Hids.
  assert (Hlen : review_id_counter st = (1 + Z.of_nat (List.length ids))%Z).
  { rewrite Hids, arange_length. lia. }
  rewrite <- Hlen.
  split; [assumption|]. rewrite Hids.
  split; [apply arange_sorted|].
  split; [apply strictly_sorted_NoDup, arange_sorted|]. intros _. reflexivity.
Qed.

(** C7: every review record of the output was made for a row of the
    product file, whose id and name it copies; its category is the one
    provided with the row (or derived from the name), or General when that
    one is not a key of the bias table. *)
Theorem unknown_category_becomes_general (args : Args) (pf : ParquetFile)
  (r : Review) :
  In r (emitted (fst (main strftime now_at args pf))) ->
  exists p,
    In p (List.concat (row_groups pf))
    /\ product_id r = row_id p
    /\ product_name r = row_name p
    /\ product_category r
       = known_or_general (provided_or_derived (has_category_column args) p)
    /\ (dict_mem String.eqb CATEGORY_BIASES
          (provided_or_derived (has_category_column args) p) = false ->
        product_category r = "General").
Proof.
  intro Hr.
  destruct (main_invariant strftime now_at args pf) as [_ [_ Hall]].
  rewrite Forall_forall in Hall.
  destruct (Hall r Hr) as [b [p [Hb [Hp [Hid [Hname Hcat]]]]]].
  apply iter_products_rows in Hb. destruct Hb as [Hcols Hrows].
  rewrite Hcols in Hcat. fold (has_category_column args) in Hcat.
  exists p. split; [apply Hrows; assumption|].
  split; [assumption|]. split; [assumption|]. split; [assumption|].
  intro Hunknown. rewrite Hcat. unfold known_or_general. rewrite Hunknown.
  reflexivity.
Qed.




Lemma substring_length (n : nat) :
  forall s, (n <= String.length s)%nat -> String.length (substring 0 n s) = n.
Proof.
  induction n as [|n IH]; intros s Hn.
  - destruct s; reflexivity.
  - destruct s as [|c s]; simpl in Hn; [lia|].
    simpl. rewrite IH by lia. reflexivity.
Qed.

Lemma safe_truncate_long (text : string) :
  (MAX_REVIEW_CHARS < Z.of_nat (String.length text))%Z ->
  safe_truncate text MAX_REVIEW_CHARS = substring 0 (Z.to_nat 99999) text.
Proof.
  unfold MAX_REVIEW_CHARS, safe_truncate. intro Hlong.
  destruct (Z.of_nat (String.length text) <=? 100000)%Z eqn:Ele;
    [apply Z.leb_le in Ele; lia|].
  reflexivity.
Qed.

(** The first half of C9 holds: no text is longer than the cap. *)
Lemma safe_truncate_within_cap (text : string) :
  (Z.of_nat (String.length (safe_truncate text MAX_REVIEW_CHARS))
   <= MAX_REVIEW_CHARS)%Z.
Proof.
  destruct (Z.of_nat (String.length text) <=? MAX_REVIEW_CHARS)%Z eqn:Ele.
  - unfold safe_truncate. rewrite Ele. apply Z.leb_le. assumption.
  - apply Z.leb_gt in Ele. rewrite (safe_truncate_long text Ele).
    rewrite substring_length; unfold MAX_REVIEW_CHARS in *; lia.
Qed.

(** C9, what the code does where the claim fails: a text longer than the
    cap of 100,000 characters is cut to its first 99,999 characters, one
    short of the cap. *)
Theorem safe_truncate_cuts_below_the_cap (text : string) :
  (MAX_REVIEW_CHARS < Z.of_nat (String.length text))%Z ->
  safe_truncate text MAX_REVIEW_CHARS = substring 0 (Z.to_nat 99999) text
  /\ Z.of_nat (String.length (safe_truncate text MAX_REVIEW_CHARS)) = 99999%Z.
Proof.
  intro Hlong. pose proof (safe_truncate_long text Hlong) as E.
  split; [exact E|]. rewrite E, substring_length; unfold MAX_REVIEW_CHARS in *; lia.
Qed.

End ReviewClaims.

(** ** The review text and the cap *)

Section TextFacts.
Context {Rng : Type} `{BitGenerator Rng}.
Import Generate_Reviews.

Lemma append_length (s1 s2 : string) :
  String.length (s1 ++ s2) = (String.length s1 + String.length s2)%nat.
Proof.
  induction s1 as [|c s1 IH]; simpl; [reflexivity|]. rewrite IH. reflexivity.
Qed.

Lemma make_review_text_truncated (rating : Z) (pname pcat : string)
  (info : PersonaInfo.t) (g g' : Rng) (text : string) :
  make_review_text rating pname pcat info g = Ok (text, g') ->
  exists full,
    text = safe_truncate full MAX_REVIEW_CHARS
    /\ (String.length pname < String.length full)%nat.
Proof.
  unfold make_review_text. destruct (dict_get Z.eqb BASE_TEMPLATES rating) as [tpl|];
    [|discriminate].
  intro Hrun.
  apply gbind_ok in Hrun. destruct Hrun as [opener [g1 [_ Hrun]]].
  apply gbind_ok in Hrun. destruct Hrun as [middle [g2 [_ Hrun]]].
  apply gbind_ok in Hrun. destruct Hrun as [closer [g3 [_ Hrun]]].
  apply gbind_ok in Hrun. destruct Hrun as [extra [g4 [_ Hrun]]].
  unfold ret in Hrun. injection Hrun as Htext _.
  eexists. split; [symmetry; exact Htext|].
  repeat (rewrite !append_length; cbn [String.length]). lia.
Qed.

(** The review text of a product whose name alone fills the cap has 99,999
    characters. *)
Lemma make_review_text_long_name (rating : Z) (pname pcat : string)
  (info : PersonaInfo.t) (g g' : Rng) (text : string) :
  (MAX_REVIEW_CHARS <= Z.of_nat (String.length pname))%Z ->
  make_review_text rating pname pcat info g = Ok (text, g') ->
  Z.of_nat (String.length text) = 99999%Z.
Proof.
  intros Hlong Hrun.
  apply make_review_text_truncated in Hrun. destruct Hrun as [full [-> Hfull]].
  rewrite safe_truncate_long by lia.
  rewrite substring_length; unfold MAX_REVIEW_CHARS in *; lia.
Qed.

Lemma make_review_text_within_cap (rating : Z) (pname pcat : string)
  (info : PersonaInfo.t) (g g' : Rng) (text : string) :
  make_review_text rating pname pcat info g = Ok (text, g') ->
  (Z.of_nat (String.length text) <= MAX_REVIEW_CHARS)%Z.
Proof.
  intro Hrun.
  apply make_review_text_truncated in Hrun. destruct Hrun as [full [-> _]].
  apply safe_truncate_within_cap.
Qed.
End TextFacts.

(** ** The product table: C3, C5, C6 *)

Section ProductClaims.
Context {Rng : Type} `{BitGenerator Rng}.
Import Generate_Products.



End ProductClaims.

(** ** Product categories and the bias table: C10 *)

Section CategoryClaims.
Context {Rng : Type} `{BitGenerator Rng}.
Variable strftime : Z -> string.
Variable now_at : Z -> Z.
Import Generate_Reviews.

(** C10: of the 20 product categories, six are keys of the bias table;
    each of the other 14 becomes General, for which the adjuster returns
    the base distribution unchanged, so the rating is drawn with the base
    distribution; and every review made for a product of one of the 14
    carries the category General. *)
Theorem only_six_product_categories_are_biased :
  biased_categories = ["Electronics"; "Clothing"; "Shoes"; "Baby"; "Books"; "Automotive"]
  /\ List.length unbiased_categories = 14%nat
  /\ Forall (fun cat => known_or_general cat = "General") unbiased_categories
  /\ adjust_probs_for_category BASE_RATING_PROBS "General" = Ok BASE_RATING_PROBS
  /\ (forall g : Rng,
        choose_rating_for_category "General" g
        = choice_p [1; 2; 3; 4; 5]%Z BASE_RATING_PROBS g)
  /\ (forall (args : Args) (p : ProductRow) (cat : string) rows_out c (g : Rng)
             rows' c' g',
        In cat unbiased_categories ->
        row_category p = Some cat ->
        product_reviews strftime now_at args true p rows_out c g
        = Ok ((rows', c'), g') ->
        exists new, rows' = (rows_out ++ new)%list
                    /\ Forall (fun r => product_category r = "General") new).
Proof.
  split; [vm_compute; reflexivity|]. split; [vm_compute; reflexivity|].
  assert (Hgen : Forall (fun cat => known_or_general cat = "General")
                        unbiased_categories)
    by (vm_compute; repeat constructor).
  split; [exact Hgen|]. split; [vm_compute; reflexivity|].
  split; [intro g; unfold choose_rating_for_category, adjust_probs_for_category;
          change (category_bias "General") with 0.0%Q; reflexivity|].
  intros args p cat rows_out c g rows' c' g' Hcat Hrow Hrun.
  apply product_reviews_appends in Hrun.
  destruct Hrun as [new [Hrows [_ [_ Hall]]]].
  exists new. split; [assumption|].
  eapply Forall_impl; [|exact Hall].
  intros r [_ [_ Hr]]. rewrite Hr. unfold provided_or_derived. rewrite Hrow.
  rewrite Forall_forall in Hgen. apply Hgen. assumption.
Qed.
End CategoryClaims.

(** ** The statements at concrete inputs *)

(** C1 fails as stated: Health has the bias 0, and with it a base vector
    with empty buckets is returned as it is. *)
Lemma adjust_probs_neutral_bias_keeps_empty_bucket :
  ((-1 <= Generate_Reviews.category_bias "Health"
    /\ Generate_Reviews.category_bias "Health" <= 1)%Q
   /\ base_distribution [1; 0; 0; 0; 0]%Q)
  /\ Generate_Reviews.adjust_probs_for_category [1; 0; 0; 0; 0]%Q "Health"
     = Ok [1; 0; 0; 0; 0]%Q
  /\ ~ valid_distribution [1; 0; 0; 0; 0]%Q.
Proof.
  split.
  - split; [split; discriminate|].
    split; [reflexivity|]. split; [repeat constructor; discriminate|reflexivity].
  - split; [reflexivity|].
    intros [Hpos _]. inversion Hpos as [|? ? _ Hrest]; subst.
    inversion Hrest as [|? ? Hzero _]; subst. discriminate Hzero.
Qed.

Lemma adjust_probs_valid_unless_neutral_witness :
  ((-1 <= 0.08 /\ 0.08 <= 1)%Q /\ base_distribution Generate_Reviews.BASE_RATING_PROBS)
  /\ exists probs,
       Generate_Reviews.adjust_probs 0.08 Generate_Reviews.BASE_RATING_PROBS = Ok probs
       /\ List.length probs = 5%nat
       /\ valid_distribution probs.
Proof.
  assert (Hb : (-1 <= 0.08 /\ 0.08 <= 1)%Q) by (split; discriminate).
  assert (Hd : base_distribution Generate_Reviews.BASE_RATING_PROBS).
  { split; [reflexivity|]. split; [repeat constructor; discriminate|reflexivity]. }
  split; [split; assumption|].
  apply (adjust_probs_valid_unless_neutral 0.08 Generate_Reviews.BASE_RATING_PROBS Hb Hd).
  discriminate.
Defined.





Lemma safe_truncate_cuts_below_the_cap_witness :
  (Generate_Reviews.MAX_REVIEW_CHARS < Z.of_nat (String.length Example.long_text))%Z
  /\ Z.of_nat (String.length
                 (Generate_Reviews.safe_truncate Example.long_text
                    Generate_Reviews.MAX_REVIEW_CHARS)) = 99999%Z.
Proof.
  assert (Hlong : (Generate_Reviews.MAX_REVIEW_CHARS
                   < Z.of_nat (String.length Example.long_text))%Z)
    by (vm_compute; reflexivity).
  split; [exact Hlong|].
  exact (proj2 (safe_truncate_cuts_below_the_cap Example.long_text Hlong)).
Defined.

Lemma unknown_category_becomes_general_witness :
  exists r,
    In r (Generate_Reviews.emitted
            (fst (Generate_Reviews.main (Rng:=N) Example.strftime Example.now_at
                    Example.review_args Example.product_file)))
    /\ Generate_Reviews.product_id r = 2%Z
    /\ Generate_Reviews.product_category r = "General".
Proof.
  assert (Hex : exists r,
             In r (Generate_Reviews.emitted
                     (fst (Generate_Reviews.main (Rng:=N) Example.strftime Example.now_at
                             Example.review_args Example.product_file)))
             /\ Generate_Reviews.product_id r = 2%Z).
  { vm_compute. eexists. split; [right; right; left; reflexivity|reflexivity]. }
  destruct Hex as [r [Hin Hid]].
  destruct (unknown_category_becomes_general (Rng:=N) Example.strftime Example.now_at
              Example.review_args Example.product_file r Hin)
    as [p [Hp [Hpid [_ [_ Hgen]]]]].
  exists r. split; [exact Hin|]. split; [exact Hid|].
  rewrite Hid in Hpid. simpl in Hp.
  destruct Hp as [<- | [<- | [<- | []]]]; try discriminate Hpid.
  apply Hgen. reflexivity.
Defined.

(** * Further properties *)

(** ** Words and single spaces *)

(** ** Blanks and words *)

Section Words.











End Words.

(** ** Product titles *)

Section Characters.








End Characters.

Section Titles.
Context {Rng : Type} `{BitGenerator Rng}.
Import Generate_Products.

Lemma always_ok {A : Type} (m : Gen A) (P : A -> Prop) (g g' : Rng) (x : A) :
  always Rng m P -> m g = Ok (x, g') -> P x.
Proof.
  intros Hm Hx. destruct (Hm g) as [y [g1 [Ey Py]]].
  rewrite Hx in Ey. inversion Ey; subst. assumption.
Qed.

Lemma always_and {A : Type} (m : Gen A) (P Q : A -> Prop) :
  always Rng m P -> always Rng m Q -> always Rng m (fun x => P x /\ Q x).
Proof.
  intros HP HQ g. destruct (HP g) as [x [g1 [Ex Px]]].
  exists x, g1. split; [assumption|]. split; [assumption|].
  exact (always_ok m Q g g1 x HQ Ex).
Qed.







End Titles.

(** ** The names and categories of the product table *)

Section ProductNames.
Context {Rng : Type} `{BitGenerator Rng}.
Import Generate_Products.



End ProductNames.



Section RoundRobin.
Context {Rng : Type} `{BitGenerator Rng}.
Import Generate_Products.



End RoundRobin.

Section TableShape.
Context {Rng : Type} `{BitGenerator Rng}.
Import Generate_Products.


End TableShape.



(** ** Tables of different lengths *)

Section LongerTables.
Context {Rng : Type} `{BitGenerator Rng}.
Import Generate_Products.




End LongerTables.


(** ** The layout of a title *)

Section TidyTexts.











End TidyTexts.

Section TitleLayout.
Context {Rng : Type} `{BitGenerator Rng}.
Import Generate_Products.







End TitleLayout.


(** ** What a review is drawn from *)

Section Sampling.
Context {Rng : Type} `{BitGenerator Rng}.
Variable strftime : Z -> string.
Import Generate_Reviews.

Lemma personas_drawable :
  Forall (fun p => first_names p <> [] /\ last_names p <> [] /\ locations p <> []
                   /\ (fst (age_range p) <= snd (age_range p))%Z)
         PERSONAS.
Proof. repeat constructor; discriminate. Qed.

Lemma sample_persona_always : always Rng sample_persona persona_consistent.
Proof.
  pose proof personas_drawable as Hd. rewrite Forall_forall in Hd.
  unfold sample_persona.
  eapply always_bind; [apply choice_in; discriminate|]. intros p Hp.
  destruct (Hd p Hp) as [Hf [Hl [Hloc Hage]]].
  eapply always_bind; [apply choice_in; assumption|]. intros first Hfirst.
  eapply always_bind; [apply choice_in; assumption|]. intros last Hlast.
  eapply always_bind; [apply integers_range; lia|]. intros age Hage'. cbv beta in Hage'.
  eapply always_bind; [apply choice_in; assumption|]. intros location Hlocation.
  apply always_ret. exists p.
  cbn [PersonaInfo.reviewer_name PersonaInfo.reviewer_persona PersonaInfo.reviewer_age
       PersonaInfo.reviewer_location PersonaInfo.persona_focus].
  split; [assumption|]. split; [exists first, last; auto|].
  split; [reflexivity|]. split; [lia|]. split; [assumption|reflexivity].
Qed.

(** X7: [sample_persona] never raises, and the reviewer it returns is
    drawn from one persona of the table: both names from its pools, its
    label and focus, one of its locations, and an age within its range,
    both ends included. *)
Theorem sample_persona_consistent (g : Rng) :
  exists info g', sample_persona g = Ok (info, g') /\ persona_consistent info.
Proof.
  destruct (sample_persona_always g) as [info [g' [Einfo Hinfo]]].
  exists info, g'. split; [exact Einfo|exact Hinfo].
Qed.

Lemma adjust_probs_on_base (bias : Q) :
  exists probs,
    adjust_probs bias BASE_RATING_PROBS = Ok probs
    /\ List.length probs = 5%nat
    /\ Forall (fun x => 0 <= x)%Q probs
    /\ (sum probs == 1)%Q.
Proof.
  destruct (Qeq_bool bias 0) eqn:Hb.
  - exists BASE_RATING_PROBS. unfold adjust_probs. rewrite Hb.
    split; [reflexivity|]. split; [reflexivity|].
    split; [repeat constructor; discriminate|reflexivity].
  - destruct (adjust_probs_shape bias 0.07 0.11 0.22 0.33 0.27 Hb) as [probs [Hp Heq]].
    unfold BASE_RATING_PROBS. rewrite Heq. eexists. split; [reflexivity|].
    assert (Hne : clip probs 1e-6 1.0 <> []).
    { intro Hnil. apply (f_equal (@List.length Q)) in Hnil.
      rewrite clip_length, Hp in Hnil. discriminate. }
    assert (Hpos : Forall (fun x => 0 < x)%Q (clip probs 1e-6 1.0)).
    { apply clip_positive; [reflexivity|discriminate]. }
    destruct (normalised_positive _ Hne Hpos) as [Hall Hsum].
    split; [unfold div_all; rewrite length_map, clip_length; exact Hp|].
    split; [|exact Hsum].
    eapply Forall_impl; [|exact Hall]. intros x Hx. apply Qlt_le_weak. exact Hx.
Qed.

Lemma choose_rating_always (category : string) :
  always Rng (choose_rating_for_category category) (fun r => (1 <= r <= 5)%Z).
Proof.
  unfold choose_rating_for_category, adjust_probs_for_category.
  destruct (adjust_probs_on_base (category_bias category)) as [probs [-> [Hl [Hnn Hs]]]].
  eapply always_bind with (P := fun p => p = probs); [apply always_lift; reflexivity|].
  intros p ->.
  eapply always_weaken.
  - apply choice_p_in; [simpl; congruence| |assumption|assumption].
    intro Hnil. rewrite Hnil in Hl. discriminate.
  - intros r Hr. simpl in Hr. lia.
Qed.

(** X8: for every category string, known to the bias table or not,
    [choose_rating_for_category] never raises and returns a rating from 1
    to 5: the weights it hands to the weighted choice always form a
    distribution over the five ratings. *)
Theorem choose_rating_in_range (category : string) (g : Rng) :
  exists r g', choose_rating_for_category category g = Ok (r, g') /\ (1 <= r <= 5)%Z.
Proof.
  destruct (choose_rating_always category g) as [r [g' [Er Hr]]].
  exists r, g'. split; [exact Er|exact Hr].
Qed.

End Sampling.

(** ** The effect of a bias on the base distribution *)

Section BiasedRatings.
Import Generate_Reviews.
Local Open Scope Q_scope.

Lemma rating_shift_bounds (bias : Q) :
  -0.15 <= rating_shift bias /\ rating_shift bias <= 0.15.
Proof.
  unfold rating_shift, max, min.
  destruct (Qlt_bool 0.15 (bias * 0.5)) eqn:E1.
  - destruct (Qlt_bool 0.15 (-0.15)) eqn:E2; [discriminate|]. split; discriminate.
  - apply Qlt_bool_false_iff in E1.
    destruct (Qlt_bool (bias * 0.5) (-0.15)) eqn:E2.
    + split; discriminate.
    + apply Qlt_bool_false_iff in E2. split; assumption.
Qed.

Lemma rating_shift_sign (bias : Q) :
  (0 < bias -> 0 < rating_shift bias) /\ (bias < 0 -> rating_shift bias < 0).
Proof.
  unfold rating_shift, max, min.
  destruct (Qlt_bool 0.15 (bias * 0.5)) eqn:E1.
  - apply Qlt_bool_iff in E1.
    destruct (Qlt_bool 0.15 (-0.15)) eqn:E2; [discriminate|].
    split; intro Hb; lra.
  - apply Qlt_bool_false_iff in E1.
    destruct (Qlt_bool (bias * 0.5) (-0.15)) eqn:E2.
    + apply Qlt_bool_iff in E2. split; intro Hb; lra.
    + split; intro Hb; lra.
Qed.

Lemma clip_inside (x lo hi : Q) : lo <= x -> x <= hi -> min (max x lo) hi = x.
Proof.
  intros Hlo Hhi. unfold min, max.
  assert (E1 : Qlt_bool x lo = false) by (apply Qlt_bool_false_iff; assumption).
  rewrite E1.
  assert (E2 : Qlt_bool hi x = false) by (apply Qlt_bool_false_iff; assumption).
  rewrite E2. reflexivity.
Qed.


Lemma normalised_entries (e0 e1 e2 e3 e4 : Q) :
  (1 # 1000000) <= e0 <= 1 -> (1 # 1000000) <= e1 <= 1 ->
  (1 # 1000000) <= e2 <= 1 -> (1 # 1000000) <= e3 <= 1 ->
  (1 # 1000000) <= e4 <= 1 ->
  e0 + e1 + e2 + e3 + e4 == 1 ->
  exists p0 p1 p2 p3 p4,
    div_all (clip [e0; e1; e2; e3; e4] 1e-6 1.0) (sum (clip [e0; e1; e2; e3; e4] 1e-6 1.0))
    = [p0; p1; p2; p3; p4]
    /\ p0 == e0 /\ p1 == e1 /\ p2 == e2 /\ p3 == e3 /\ p4 == e4.
Proof.
  intros [L0 U0] [L1 U1] [L2 U2] [L3 U3] [L4 U4] Hsum.
  assert (T : forall x, (1 # 1000000) <= x -> 1e-6 <= x).
  { intros x Hx. apply Qle_trans with (1 # 1000000); [discriminate|exact Hx]. }
  unfold clip. cbn [map].
  rewrite !clip_inside by (try (apply T; assumption); lra).
  assert (Hs : sum [e0; e1; e2; e3; e4] == 1).
  { rewrite !sum_cons, sum_nil. rewrite <- Hsum. ring. }
  unfold div_all. cbn [map]. do 5 eexists. split; [reflexivity|].
  repeat split; rewrite Hs; field.
Qed.

Lemma rating_shift_neutral (bias : Q) : bias == 0 -> rating_shift bias == 0.
Proof.
  intro Hb. unfold rating_shift, max, min.
  destruct (Qlt_bool 0.15 (bias * 0.5)) eqn:E1.
  - apply Qlt_bool_iff in E1. lra.
  - destruct (Qlt_bool (bias * 0.5) (-0.15)) eqn:E2.
    + apply Qlt_bool_iff in E2. lra.
    + lra.
Qed.

Lemma adjust_base_up (bias : Q) :
  0 < rating_shift bias ->
  exists p0 p1 p2 p3 p4,
    adjust_probs bias BASE_RATING_PROBS = Ok [p0; p1; p2; p3; p4]
    /\ p0 == 0.07 * (1 - rating_shift bias)
    /\ p1 == 0.11 * (1 - rating_shift bias)
    /\ p2 == 0.22
    /\ p3 == 0.33 * (1 + 0.3 * rating_shift bias)
    /\ p4 == 0.27 * (1 + 0.3 * rating_shift bias).
Proof.
  intro Hs. destruct (rating_shift_bounds bias) as [Hlo Hhi].
  assert (Hb : Qeq_bool bias 0 = false).
  { destruct (Qeq_bool bias 0) eqn:E; [|reflexivity].
    apply Qeq_bool_iff in E. apply rating_shift_neutral in E. lra. }
  unfold adjust_probs, BASE_RATING_PROBS. rewrite Hb.
  change (max (min (bias * 0.5) 0.15) (-0.15)) with (rating_shift bias).
  cbv zeta.
  assert (E1 : Qlt_bool 0 (rating_shift bias) = true) by (apply Qlt_bool_iff; exact Hs).
  rewrite E1.
  cbn [bind getitem setitem nth_error Nat.ltb Nat.leb List.length firstn skipn app].
  assert (E2 : Qlt_bool 0 (rating_shift bias * (0.07 + 0.11)) = true).
  { apply Qlt_bool_iff. lra. }
  rewrite E2.
  cbn [bind getitem setitem nth_error Nat.ltb Nat.leb List.length firstn skipn app].
  change (Qle_bool (0.33 + 0.27) 0) with false. cbv iota.
  cbn [bind getitem setitem nth_error Nat.ltb Nat.leb List.length firstn skipn app].
  match goal with
  | |- exists p0 p1 p2 p3 p4,
        Ok (div_all (clip [?e0; ?e1; ?e2; ?e3; ?e4] _ _) _) = _ /\ _ =>
      assert (H0 : e0 == 0.07 * (1 - rating_shift bias)) by (field; discriminate);
      assert (H1 : e1 == 0.11 * (1 - rating_shift bias)) by (field; discriminate);
      assert (H3 : e3 == 0.33 * (1 + 0.3 * rating_shift bias)) by (field; discriminate);
      assert (H4 : e4 == 0.27 * (1 + 0.3 * rating_shift bias)) by (field; discriminate);
      set (x0 := e0) in *; set (x1 := e1) in *; set (x3 := e3) in *;
      set (x4 := e4) in *; clearbody x0 x1 x3 x4;
      destruct (normalised_entries x0 x1 0.22 x3 x4) as [p0 [p1 [p2 [p3 [p4 [Heq Hp]]]]]];
        [split; lra|split; lra|split; lra|split; lra|split; lra|lra|]
  end.
  rewrite Heq. exists p0, p1, p2, p3, p4. split; [reflexivity|].
  destruct Hp as [P0 [P1 [P2 [P3 P4]]]].
  rewrite P0, P1, P2, P3, P4. repeat split; try assumption; reflexivity.
Qed.

Lemma adjust_base_down (bias : Q) :
  rating_shift bias < 0 ->
  exists p0 p1 p2 p3 p4,
    adjust_probs bias BASE_RATING_PROBS = Ok [p0; p1; p2; p3; p4]
    /\ p0 == 0.07 * (1 - (10 # 3) * rating_shift bias)
    /\ p1 == 0.11 * (1 - (10 # 3) * rating_shift bias)
    /\ p2 == 0.22
    /\ p3 == 0.33 * (1 + rating_shift bias)
    /\ p4 == 0.27 * (1 + rating_shift bias).
Proof.
  intro Hs. destruct (rating_shift_bounds bias) as [Hlo Hhi].
  assert (Hb : Qeq_bool bias 0 = false).
  { destruct (Qeq_bool bias 0) eqn:E; [|reflexivity].
    apply Qeq_bool_iff in E. apply rating_shift_neutral in E. lra. }
  unfold adjust_probs, BASE_RATING_PROBS. rewrite Hb.
  change (max (min (bias * 0.5) 0.15) (-0.15)) with (rating_shift bias).
  cbv zeta.
  assert (E1 : Qlt_bool 0 (rating_shift bias) = false).
  { apply Qlt_bool_false_iff. lra. }
  rewrite E1.
  cbn [bind getitem setitem nth_error Nat.ltb Nat.leb List.length firstn skipn app].
  assert (E2 : Qlt_bool 0 (- rating_shift bias * (0.33 + 0.27)) = true).
  { apply Qlt_bool_iff. lra. }
  rewrite E2.
  cbn [bind getitem setitem nth_error Nat.ltb Nat.leb List.length firstn skipn app].
  change (Qle_bool (0.07 + 0.11) 0) with false. cbv iota.
  cbn [bind getitem setitem nth_error Nat.ltb Nat.leb List.length firstn skipn app].
  match goal with
  | |- exists p0 p1 p2 p3 p4,
        Ok (div_all (clip [?e0; ?e1; ?e2; ?e3; ?e4] _ _) _) = _ /\ _ =>
      assert (H0 : e0 == 0.07 * (1 - (10 # 3) * rating_shift bias)) by (field; discriminate);
      assert (H1 : e1 == 0.11 * (1 - (10 # 3) * rating_shift bias)) by (field; discriminate);
      assert (H3 : e3 == 0.33 * (1 + rating_shift bias)) by (field; discriminate);
      assert (H4 : e4 == 0.27 * (1 + rating_shift bias)) by (field; discriminate);
      set (x0 := e0) in *; set (x1 := e1) in *; set (x3 := e3) in *;
      set (x4 := e4) in *; clearbody x0 x1 x3 x4;
      destruct (normalised_entries x0 x1 0.22 x3 x4) as [p0 [p1 [p2 [p3 [p4 [Heq Hp]]]]]];
        [split; lra|split; lra|split; lra|split; lra|split; lra|lra|]
  end.
  rewrite Heq. exists p0, p1, p2, p3, p4. split; [reflexivity|].
  destruct Hp as [P0 [P1 [P2 [P3 P4]]]].
  rewrite P0, P1, P2, P3, P4. repeat split; try assumption; reflexivity.
Qed.

(** X10: on the base rating distribution a positive bias lowers the
    chances of ratings 1 and 2 and raises those of ratings 4 and 5, a
    negative bias does the opposite, and a bias of zero changes nothing;
    the chance of rating 3 is 0.22 whatever the bias. *)
Theorem bias_moves_ratings_between_low_and_high (bias : Q) :
  exists p1 p2 p3 p4 p5,
    adjust_probs bias BASE_RATING_PROBS = Ok [p1; p2; p3; p4; p5]
    /\ p3 == 0.22
    /\ (0 < bias -> p1 < 0.07 /\ p2 < 0.11 /\ 0.33 < p4 /\ 0.27 < p5)
    /\ (bias < 0 -> 0.07 < p1 /\ 0.11 < p2 /\ p4 < 0.33 /\ p5 < 0.27)
    /\ (bias == 0 -> p1 == 0.07 /\ p2 == 0.11 /\ p4 == 0.33 /\ p5 == 0.27).
Proof.
  destruct (rating_shift_sign bias) as [Hpos Hneg].
  destruct (Q_dec bias 0) as [[Hb|Hb]|Hb].
  - destruct (adjust_base_down bias (Hneg Hb)) as [p1 [p2 [p3 [p4 [p5 [E [P1 [P2 [P3 [P4 P5]]]]]]]]]].
    exists p1, p2, p3, p4, p5. split; [exact E|]. split; [exact P3|].
    specialize (Hneg Hb).
    repeat split; intros; lra.
  - destruct (adjust_base_up bias (Hpos Hb)) as [p1 [p2 [p3 [p4 [p5 [E [P1 [P2 [P3 [P4 P5]]]]]]]]]].
    exists p1, p2, p3, p4, p5. split; [exact E|]. split; [exact P3|].
    specialize (Hpos Hb).
    repeat split; intros; lra.
  - exists 0.07, 0.11, 0.22, 0.33, 0.27.
    unfold adjust_probs.
    assert (E : Qeq_bool bias 0 = true) by (apply Qeq_bool_iff; exact Hb).
    rewrite E. split; [reflexivity|].
    repeat split; intros; lra.
Qed.
End BiasedRatings.

(** ** Truncation *)

Section Truncation.
Import Generate_Reviews.

Lemma substring_prefix (n : nat) :
  forall s, prefix (substring 0 n s) s = true.
Proof.
  induction n as [|n IH]; intro s.
  - destruct s; reflexivity.
  - destruct s as [|c s]; [reflexivity|]. simpl.
    destruct (ascii_dec c c) as [_|Hne]; [apply IH|congruence].
Qed.

Lemma prefix_refl (s : string) : prefix s s = true.
Proof.
  induction s as [|c s IH]; [reflexivity|]. simpl.
  destruct (ascii_dec c c) as [_|Hne]; [assumption|congruence].
Qed.

Lemma substring_short (n : nat) :
  forall s, (String.length (substring 0 n s) <= n)%nat.
Proof.
  induction n as [|n IH]; intro s.
  - destruct s; simpl; lia.
  - destruct s as [|c s]; simpl; [lia|]. specialize (IH s). lia.
Qed.

(** X11: for a cap of at least 1, [safe_truncate] returns a prefix of
    the text that is within the cap, and truncating it again changes
    nothing. *)
Theorem safe_truncate_prefix_within_cap (text : string) (max_chars : Z) :
  (1 <= max_chars)%Z ->
  prefix (safe_truncate text max_chars) text = true
  /\ (Z.of_nat (String.length (safe_truncate text max_chars)) <= max_chars)%Z
  /\ safe_truncate (safe_truncate text max_chars) max_chars
     = safe_truncate text max_chars.
Proof.
  intro Hmax.
  assert (Hcap : (Z.of_nat (String.length (safe_truncate text max_chars))
                  <= max_chars)%Z).
  { unfold safe_truncate.
    destruct (Z.of_nat (String.length text) <=? max_chars)%Z eqn:E.
    - apply Z.leb_le. exact E.
    - unfold str_slice_to.
      destruct (max_chars - 1 <? 0)%Z eqn:E1; [apply Z.ltb_lt in E1; lia|].
      pose proof (substring_short (Z.to_nat (max_chars - 1)) text). lia. }
  split; [|split; [exact Hcap|]].
  - unfold safe_truncate.
    destruct (Z.of_nat (String.length text) <=? max_chars)%Z; [apply prefix_refl|].
    unfold str_slice_to.
    destruct (max_chars - 1 <? 0)%Z; apply substring_prefix.
  - unfold safe_truncate at 1.
    apply Z.leb_le in Hcap. rewrite Hcap. reflexivity.
Qed.
End Truncation.

Lemma safe_truncate_prefix_within_cap_witness :
  (1 <= 5)%Z
  /\ Generate_Reviews.safe_truncate "Good buy." 5 = "Good"
  /\ prefix (Generate_Reviews.safe_truncate "Good buy." 5) "Good buy." = true
  /\ Generate_Reviews.safe_truncate (Generate_Reviews.safe_truncate "Good buy." 5) 5
     = Generate_Reviews.safe_truncate "Good buy." 5.
Proof.
  split; [discriminate|]. split; [reflexivity|].
  destruct (safe_truncate_prefix_within_cap "Good buy." 5) as [Hp [_ Hi]];
    [discriminate|].
  split; assumption.
Defined.

(** ** The records of one product and of one batch *)

Section ReviewCounts.
Context {Rng : Type} `{BitGenerator Rng}.
Import Generate_Reviews.

Lemma choose_num_reviews_above_five (M : Z) (g : Rng) :
  (6 <= M)%Z -> choose_num_reviews M g = Raise ValueError.
Proof.
  intro HM. unfold choose_num_reviews.
  destruct (M <? 1)%Z eqn:E; [apply Z.ltb_lt in E; lia|].
  unfold choice_p.
  assert (Hlen : (List.length (range (M + 1))
                  =? List.length (review_count_weights M))%nat = false).
  { apply Nat.eqb_neq. rewrite range_length.
    unfold review_count_weights, div_all, slice_to.
    destruct (M + 1 <? 0)%Z eqn:E1; [apply Z.ltb_lt in E1; lia|].
    rewrite length_map, length_firstn. simpl List.length. lia. }
  rewrite Hlen. reflexivity.
Qed.

Lemma choose_num_reviews_at_most (M : Z) (g g' : Rng) (k : Z) :
  choose_num_reviews M g = Ok (k, g') -> (0 <= k <= Z.max 0 M)%Z.
Proof.
  intro Hk.
  destruct (Z_lt_le_dec M 1) as [Hlow | Hlow].
  - unfold choose_num_reviews in Hk. apply Z.ltb_lt in Hlow. rewrite Hlow in Hk.
    unfold ret in Hk. inversion Hk; subst. lia.
  - destruct (Z_le_gt_dec 6 M) as [Hhigh | Hhigh].
    + rewrite choose_num_reviews_above_five in Hk by assumption. discriminate.
    + destruct (review_count_weights_distribution M) as [Hlen [Hnn Hsum]]; [lia|].
      assert (Ha : always Rng (choice_p (range (M + 1)) (review_count_weights M))
                          (fun x => In x (range (M + 1)))).
      { apply choice_p_in; try assumption.
        - rewrite range_length. auto.
        - intro Hnil. rewrite Hnil in Hlen. simpl in Hlen. lia. }
      unfold choose_num_reviews in Hk.
      destruct (M <? 1)%Z eqn:E; [apply Z.ltb_lt in E; lia|].
      apply (always_ok _ _ _ _ _ Ha) in Hk. apply in_range in Hk. lia.
Qed.
End ReviewCounts.

Section ReviewRecords.
Context {Rng : Type} `{BitGenerator Rng}.
Variable strftime : Z -> string.
Variable now_at : Z -> Z.
Import Generate_Reviews.

Lemma known_or_general_is_key (pcat : string) :
  dict_mem String.eqb CATEGORY_BIASES (known_or_general pcat) = true.
Proof.
  unfold known_or_general.
  destruct (dict_mem String.eqb CATEGORY_BIASES pcat) eqn:E; [exact E|reflexivity].
Qed.

Lemma make_review_well_formed (args : Args) (pid : Z) (pname pcat : string) (c : Z)
  (g g' : Rng) (r : Review) :
  dict_mem String.eqb CATEGORY_BIASES pcat = true ->
  make_review strftime now_at args pid pname pcat c g = Ok (r, g') ->
  review_well_formed r.
Proof.
  unfold make_review. intros Hkey Hr.
  apply gbind_ok in Hr. destruct Hr as [info [g1 [Hinfo Hr]]].
  apply gbind_ok in Hr. destruct Hr as [rt [g2 [Hrt Hr]]].
  apply gbind_ok in Hr. destruct Hr as [txt [g3 [Htxt Hr]]].
  apply gbind_ok in Hr. destruct Hr as [date [g4 [_ Hr]]].
  unfold ret in Hr. inversion Hr; subst. unfold review_well_formed.
  cbn [rating product_category review_text reviewer_name reviewer_persona
       reviewer_age reviewer_location].
  split; [exact (always_ok _ _ _ _ _ (choose_rating_always pcat) Hrt)|].
  split; [assumption|].
  split; [exact (make_review_text_within_cap _ _ _ _ _ _ _ Htxt)|].
  exists info. split; [exact (always_ok _ _ _ _ _ sample_persona_always Hinfo)|].
  repeat split.
Qed.

(** What a loop adds to [rows_out]: [n] records at most, each satisfying
    [P]. *)
Lemma reviews_loop_each (P : Review -> Prop) (args : Args) (pid : Z)
  (pname pcat : string) :
  (forall c g r g',
     make_review strftime now_at args pid pname pcat c g = Ok (r, g') -> P r) ->
  forall n rows_out c g rows' c' g',
    reviews_loop strftime now_at args pid pname pcat n rows_out c g
    = Ok ((rows', c'), g') ->
    exists new, rows' = (rows_out ++ new)%list /\ Forall P new /\ List.length new = n.
Proof.
  intro HP. induction n as [|n IH]; intros rows_out c g rows' c' g' Hrun.
  - simpl in Hrun. unfold ret in Hrun. inversion Hrun; subst.
    exists []. rewrite app_nil_r. repeat split. constructor.
  - simpl in Hrun. apply gbind_ok in Hrun. destruct Hrun as [r [g1 [Hr Hrun]]].
    apply HP in Hr. apply IH in Hrun. destruct Hrun as [new [Hrows [Hall Hlen]]].
    exists (r :: new). split; [rewrite Hrows, <- app_assoc; reflexivity|].
    split; [constructor; assumption|simpl; congruence].
Qed.

Lemma product_reviews_each (P : Review -> Prop) (args : Args) (has_category : bool)
  (p : ProductRow) :
  (forall pid pname pcat c g r g',
     dict_mem String.eqb CATEGORY_BIASES pcat = true ->
     make_review strftime now_at args pid pname pcat c g = Ok (r, g') -> P r) ->
  forall rows_out c g rows' c' g',
    product_reviews strftime now_at args has_category p rows_out c g
    = Ok ((rows', c'), g') ->
    exists new,
      rows' = (rows_out ++ new)%list /\ Forall P new
      /\ (Z.of_nat (List.length new) <= Z.max 0 (max_reviews_per_product args))%Z.
Proof.
  intros HP rows_out c g rows' c' g' Hrun. unfold product_reviews in Hrun.
  apply gbind_ok in Hrun. destruct Hrun as [n [g1 [Hn Hrun]]].
  apply choose_num_reviews_at_most in Hn.
  apply (reviews_loop_each P) in Hrun.
  - destruct Hrun as [new [Hrows [Hall Hlen]]]. exists new.
    split; [assumption|]. split; [assumption|]. lia.
  - intros c0 g0 r g0'. apply HP. apply known_or_general_is_key.
Qed.

Lemma iterrows_each (P : Review -> Prop) (args : Args) (has_category : bool) :
  (forall pid pname pcat c g r g',
     dict_mem String.eqb CATEGORY_BIASES pcat = true ->
     make_review strftime now_at args pid pname pcat c g = Ok (r, g') -> P r) ->
  forall rows rows_out c g rows' c' g',
    iterrows strftime now_at args has_category rows rows_out c g
    = Ok ((rows', c'), g') ->
    exists new,
      rows' = (rows_out ++ new)%list /\ Forall P new
      /\ (Z.of_nat (List.length new)
          <= Z.max 0 (max_reviews_per_product args) * Z.of_nat (List.length rows))%Z.
Proof.
  intro HP. induction rows as [|p rows IH]; intros rows_out c g rows' c' g' Hrun.
  - simpl in Hrun. unfold ret in Hrun. inversion Hrun; subst.
    exists []. rewrite app_nil_r. split; [reflexivity|]. split; [constructor|].
    simpl. lia.
  - simpl in Hrun. apply gbind_ok in Hrun.
    destruct Hrun as [[rows1 c1] [g1 [Hp Hrun]]].
    apply (product_reviews_each P _ _ _ HP) in Hp.
    destruct Hp as [new1 [-> [Hall1 Hlen1]]].
    apply IH in Hrun. destruct Hrun as [new2 [-> [Hall2 Hlen2]]].
    exists (new1 ++ new2)%list. split; [rewrite app_assoc; reflexivity|].
    split; [apply Forall_app; split; assumption|].
    rewrite length_app. simpl List.length. lia.
Qed.
End ReviewRecords.

(** ** Batches of product rows *)

Section Batching.
Import Generate_Reviews.

Lemma chunk_from_nonempty {A : Type} (size : nat) (rows : list A) :
  forall room cur,
    (cur = [] -> room <> 0%nat) ->
    Forall (fun chunk => chunk <> []) (chunk_from size room cur rows).
Proof.
  induction rows as [|r rows IH]; intros room cur Hinv; simpl.
  - destruct cur as [|a cur]; constructor; [|constructor].
    intro Hnil. apply (f_equal (@List.length A)) in Hnil.
    rewrite length_rev in Hnil. discriminate.
  - destruct room as [|room].
    + constructor.
      * intro Hnil. apply (f_equal (@List.length A)) in Hnil.
        rewrite length_rev in Hnil. destruct cur; [apply Hinv; reflexivity|discriminate].
      * apply IH. discriminate.
    + apply IH. discriminate.
Qed.

Lemma chunk_from_bounded {A : Type} (size : nat) (rows : list A) :
  (1 <= size)%nat ->
  forall room cur,
    (List.length cur + room = size)%nat ->
    Forall (fun chunk => (List.length chunk <= size)%nat) (chunk_from size room cur rows).
Proof.
  intro Hsize. induction rows as [|r rows IH]; intros room cur Hinv; simpl.
  - destruct cur as [|a cur]; constructor; [|constructor].
    rewrite length_rev. lia.
  - destruct room as [|room].
    + constructor; [rewrite length_rev; lia|]. apply IH. simpl. lia.
    + apply IH. simpl. lia.
Qed.

Lemma iter_products_flat (pf : ParquetFile) (id_col name_col category_col : string)
  (batch_size : Z) :
  flat_map batch_rows
           (iter_products_from_parquet pf id_col name_col category_col batch_size)
  = List.concat (row_groups pf).
Proof.
  unfold iter_products_from_parquet.
  induction (row_groups pf) as [|rg rgs IH]; [reflexivity|].
  cbn [flat_map List.concat]. rewrite flat_map_app, IH. f_equal.
  rewrite flat_map_concat_map, map_map. cbn [batch_rows].
  rewrite map_id. apply to_batches_concat.
Qed.

Lemma iter_products_batches (pf : ParquetFile)
  (id_col name_col category_col : string) (batch_size : Z) :
  Forall (fun b =>
            batch_rows b <> []
            /\ (Z.of_nat (List.length (batch_rows b)) <= Z.max 1 batch_size)%Z
            /\ columns b = columns_to_read id_col name_col category_col)
         (iter_products_from_parquet pf id_col name_col category_col batch_size).
Proof.
  unfold iter_products_from_parquet.
  apply Forall_forall. intros b Hb.
  apply in_flat_map in Hb. destruct Hb as [rg [_ Hb]].
  apply in_map_iff in Hb. destruct Hb as [rows [<- Hrows]].
  cbn [batch_rows columns]. unfold to_batches in Hrows.
  pose proof (Pos2Nat.is_pos (Z.to_pos batch_size)) as Hpos.
  split; [|split; [|reflexivity]].
  - pose proof (chunk_from_nonempty (Pos.to_nat (Z.to_pos batch_size)) rg
                  (Pos.to_nat (Z.to_pos batch_size)) [] ltac:(lia)) as Hne.
    rewrite Forall_forall in Hne. apply Hne. assumption.
  - pose proof (chunk_from_bounded (Pos.to_nat (Z.to_pos batch_size)) rg ltac:(lia)
                  (Pos.to_nat (Z.to_pos batch_size)) [] ltac:(simpl; lia)) as Hb.
    rewrite Forall_forall in Hb. specialize (Hb rows Hrows).
    destruct batch_size; simpl in *; lia.
Qed.

End Batching.


(** ** The review records of a run *)

Section ReviewOutput.
Context {Rng : Type} `{BitGenerator Rng}.
Variable strftime : Z -> string.
Variable now_at : Z -> Z.
Import Generate_Reviews.

Lemma batches_loop_each (P : Review -> Prop) (args : Args) (out_is_csv : bool) :
  (forall pid pname pcat c g r g',
     dict_mem String.eqb CATEGORY_BIASES pcat = true ->
     make_review strftime now_at args pid pname pcat c g = Ok (r, g') -> P r) ->
  forall batches (st : State (Rng:=Rng)),
    Forall P (emitted st) ->
    let st' := fst (batches_loop strftime now_at args out_is_csv batches st) in
    Forall P (emitted st')
    /\ (Z.of_nat (List.length (emitted st'))
        <= Z.of_nat (List.length (emitted st))
           + Z.max 0 (max_reviews_per_product args)
             * Z.of_nat (List.length (flat_map batch_rows batches)))%Z.
Proof.
  intro HP. induction batches as [|b batches IH]; intros st Hst; simpl.
  - split; [assumption|lia].
  - destruct (iterrows strftime now_at args _ (batch_rows b) [] (review_id_counter st)
                       (rng st)) as [[[rows_out c] g]|e] eqn:Erun.
    2:{ simpl. split; [assumption|]. rewrite length_app. nia. }
    apply (iterrows_each strftime now_at P args _ HP) in Erun.
    destruct Erun as [new [Hrows [Hall Hlen]]]. simpl in Hrows. subst rows_out.
    rewrite length_app.
    destruct new as [|r new].
    + match goal with
      | |- context [batches_loop _ _ _ _ _ ?s] => destruct (IH s Hst) as [IH1 IH2]
      end.
      split; [exact IH1|]. unfold emitted in IH2 at 2. simpl written in IH2.
      fold (emitted st) in IH2. nia.
    + match goal with
      | |- context [batches_loop _ _ _ _ _ ?s] => specialize (IH s)
      end.
      match type of IH with
      | Forall P (emitted (flush ?a ?b ?r ?s)) -> _ =>
          destruct (emitted_flush a b r s) as [Hem _]
      end.
      rewrite Hem in IH.
      change (emitted {| rng := g; review_id_counter := c;
                         csv_header_written := csv_header_written st;
                         parquet_writer := parquet_writer st;
                         written := written st |}) with (emitted st) in IH.
      destruct IH as [IH1 IH2]; [apply Forall_app; split; assumption|].
      split; [exact IH1|]. rewrite length_app in IH2. nia.
Qed.

Lemma main_each (P : Review -> Prop) (args : Args) (pf : ParquetFile) :
  (forall pid pname pcat c g r g',
     dict_mem String.eqb CATEGORY_BIASES pcat = true ->
     make_review strftime now_at args pid pname pcat c g = Ok (r, g') -> P r) ->
  Forall P (emitted (fst (main strftime now_at args pf)))
  /\ (Z.of_nat (List.length (emitted (fst (main strftime now_at args pf))))
      <= Z.max 0 (max_reviews_per_product args)
         * Z.of_nat (List.length (List.concat (row_groups pf))))%Z.
Proof.
  intro HP. unfold main.
  set (st0 := {| rng := default_rng (seed args); review_id_counter := 1;
                 csv_header_written := false; parquet_writer := false;
                 written := [] |}).
  destruct (negb _).
  { simpl. split; [constructor|]. lia. }
  pose proof (batches_loop_each P args (endswith (lower (output args)) ".csv") HP
                (iter_products_from_parquet pf (id_column args) (name_column args)
                   (category_column args) (batch_size args))
                st0 (Forall_nil P)) as Hloop.
  cbv zeta in Hloop. rewrite iter_products_flat in Hloop.
  change (emitted st0) with (@nil Review) in Hloop. simpl List.length in Hloop at 2.
  destruct (batches_loop _ _ _ _ _ _) as [st [e|]]; simpl fst in *; [exact Hloop|].
  destruct (parquet_writer st); [|exact Hloop].
  unfold emitted in *. simpl written. rewrite flat_map_app. simpl.
  rewrite app_nil_r. exact Hloop.
Qed.

(** X13: every review record of an output has a rating from 1 to 5, a
    category that is a key of the bias table, a text within the cap, and a
    reviewer drawn from one persona: names, label, location, and an age
    within that persona's range. *)
Theorem every_review_is_well_formed (args : Args) (pf : ParquetFile) :
  Forall review_well_formed (emitted (fst (main strftime now_at args pf))).
Proof.
  apply (main_each review_well_formed args pf).
  intros pid pname pcat c g r g'. apply make_review_well_formed.
Qed.

(** X14: a product gets at most as many reviews as the maximum allows, none
    when the maximum is negative; so an output has at most the maximum
    times the number of product rows. *)
Theorem reviews_bounded_by_maximum (args : Args) (pf : ParquetFile) :
  (forall has_category p rows_out c (g : Rng) rows' c' g',
     product_reviews strftime now_at args has_category p rows_out c g
     = Ok ((rows', c'), g') ->
     exists new,
       rows' = (rows_out ++ new)%list
       /\ (Z.of_nat (List.length new) <= Z.max 0 (max_reviews_per_product args))%Z)
  /\ (Z.of_nat (List.length (emitted (fst (main strftime now_at args pf))))
      <= Z.max 0 (max_reviews_per_product args)
         * Z.of_nat (List.length (List.concat (row_groups pf))))%Z.
Proof.
  split.
  - intros has_category p rows_out c g rows' c' g' Hrun.
    apply (product_reviews_each strftime now_at (fun _ => True)) in Hrun; [|auto].
    destruct Hrun as [new [Hrows [_ Hlen]]]. exists new. split; assumption.
  - apply (main_each (fun _ => True) args pf). auto.
Qed.

(** X15: with a maximum of 6 or more, a run over a file that has a row
    raises ValueError at the first product and writes nothing. *)
Theorem run_fails_when_maximum_above_five (args : Args) (pf : ParquetFile) :
  (6 <= max_reviews_per_product args)%Z ->
  endswith (lower (output args)) ".parquet" || endswith (lower (output args)) ".csv"
  = true ->
  List.concat (row_groups pf) <> [] ->
  main strftime now_at args pf
  = ({| rng := default_rng (seed args);
        review_id_counter := 1;
        csv_header_written := false;
        parquet_writer := false;
        written := [] |}, Some ValueError).
Proof.
  intros HM Hext Hrows. unfold main. rewrite Hext. simpl negb. cbv iota.
  pose proof (iter_products_flat pf (id_column args) (name_column args)
                (category_column args) (batch_size args)) as Hflat.
  pose proof (iter_products_batches pf (id_column args) (name_column args)
                (category_column args) (batch_size args)) as Hall.
  destruct (iter_products_from_parquet pf (id_column args) (name_column args)
              (category_column args) (batch_size args)) as [|b batches].
  { simpl in Hflat. congruence. }
  inversion Hall as [|? ? [Hne _] _]; subst.
  destruct (batch_rows b) as [|p rows] eqn:Eb; [congruence|].
  cbn [batches_loop]. rewrite Eb. cbn [iterrows].
  unfold gbind at 1. unfold product_reviews. unfold gbind at 1.
  cbn [review_id_counter rng].
  rewrite choose_num_reviews_above_five by assumption. reflexivity.
Qed.
End ReviewOutput.


Lemma run_fails_when_maximum_above_five_witness :
  ((6 <= Generate_Reviews.max_reviews_per_product six_review_args)%Z
   /\ endswith (lower (Generate_Reviews.output six_review_args)) ".parquet"
      || endswith (lower (Generate_Reviews.output six_review_args)) ".csv" = true
   /\ List.concat (Generate_Reviews.row_groups Example.product_file) <> [])
  /\ snd (Generate_Reviews.main (Rng:=N) Example.strftime Example.now_at
            six_review_args Example.product_file) = Some ValueError
  /\ Generate_Reviews.written
       (fst (Generate_Reviews.main (Rng:=N) Example.strftime Example.now_at
               six_review_args Example.product_file)) = [].
Proof.
  assert (HM : (6 <= Generate_Reviews.max_reviews_per_product six_review_args)%Z)
    by discriminate.
  assert (Hext : endswith (lower (Generate_Reviews.output six_review_args)) ".parquet"
                 || endswith (lower (Generate_Reviews.output six_review_args)) ".csv"
                 = true) by reflexivity.
  assert (Hrows : List.concat (Generate_Reviews.row_groups Example.product_file) <> [])
    by discriminate.
  split; [split; [exact HM|split; [exact Hext|exact Hrows]]|].
  rewrite (run_fails_when_maximum_above_five (Rng:=N) Example.strftime Example.now_at
             six_review_args Example.product_file HM Hext Hrows).
  split; reflexivity.
Defined.

(** ** The calls on the output *)

Section OutputCalls.
Context {Rng : Type} `{BitGenerator Rng}.
Variable strftime : Z -> string.
Variable now_at : Z -> Z.
Import Generate_Reviews.

Lemma flush_csv (args : Args) (rows_out : list Review) (st : State (Rng:=Rng)) :
  rows_out <> [] -> csv_state (output args) st ->
  csv_state (output args) (flush args true rows_out st).
Proof.
  intros Hne [Hpw Hst]. unfold flush, csv_state in *.
  cbn [parquet_writer csv_header_written written].
  split; [assumption|].
  destruct (csv_header_written st).
  - destruct Hst as [first [rest [-> Hall]]].
    exists first, (rest ++ [rows_out])%list. split.
    + rewrite map_app. reflexivity.
    + rewrite app_comm_cons. apply Forall_app. split; [assumption|].
      constructor; [assumption|constructor].
  - rewrite Hst. exists rows_out, []. split; [reflexivity|].
    constructor; [assumption|constructor].
Qed.

Lemma flush_parquet (args : Args) (rows_out : list Review) (st : State (Rng:=Rng)) :
  rows_out <> [] -> parquet_state (output args) st ->
  parquet_state (output args) (flush args false rows_out st).
Proof.
  intros Hne Hst. unfold flush, parquet_state in *.
  cbn [parquet_writer csv_header_written written].
  destruct (parquet_writer st).
  - destruct Hst as [first [rest [-> Hall]]].
    exists first, (rest ++ [rows_out])%list. split.
    + rewrite map_app. reflexivity.
    + rewrite app_comm_cons. apply Forall_app. split; [assumption|].
      constructor; [assumption|constructor].
  - rewrite Hst. exists rows_out, []. split; [reflexivity|].
    constructor; [assumption|constructor].
Qed.

Lemma batches_loop_calls (I : State (Rng:=Rng) -> Prop) (args : Args)
  (out_is_csv : bool) :
  (forall st g c, I st ->
     I {| rng := g; review_id_counter := c;
          csv_header_written := csv_header_written st;
          parquet_writer := parquet_writer st; written := written st |}) ->
  (forall st rows_out, rows_out <> [] -> I st -> I (flush args out_is_csv rows_out st)) ->
  forall batches st,
    I st -> I (fst (batches_loop strftime now_at args out_is_csv batches st)).
Proof.
  intros Hstep Hflush. induction batches as [|b batches IH]; intros st Hst; simpl.
  - assumption.
  - destruct (iterrows strftime now_at args _ (batch_rows b) [] (review_id_counter st)
                       (rng st)) as [[[rows_out c] g]|e]; [|assumption].
    destruct rows_out as [|r rows_out].
    + apply IH. apply Hstep. assumption.
    + apply IH. apply Hflush; [discriminate|]. apply Hstep. assumption.
Qed.

(** X16: the calls a run makes on its output come in order. On delimited
    text: appends only, the header written by the first and by no other.
    On Parquet: the writer is opened once, before the first table, and
    closed once, after the last, when the run ends without an exception.
    Nothing is written for a batch without reviews, and nothing at all
    when no batch has any. *)
Theorem output_calls_in_order (args : Args) (pf : ParquetFile) :
  let out := main strftime now_at args pf in
  if endswith (lower (output args)) ".csv"
  then csv_trace (output args) (written (fst out))
  else parquet_trace (output args)
         (match snd out with None => true | Some _ => false end)
         (written (fst out)).
Proof.
  cbv zeta. unfold main.
  set (st0 := {| rng := default_rng (seed args); review_id_counter := 1;
                 csv_header_written := false; parquet_writer := false;
                 written := [] |}).
  set (batches := iter_products_from_parquet pf (id_column args) (name_column args)
                    (category_column args) (batch_size args)).
  destruct (endswith (lower (output args)) ".csv") eqn:Ecsv.
  - rewrite orb_true_r. simpl negb. cbv iota.
    assert (Hinv : csv_state (output args)
                     (fst (batches_loop strftime now_at args true batches st0))).
    { apply (batches_loop_calls (csv_state (output args))).
      - intros st g c Hst. exact Hst.
      - intros st rows_out Hne Hst. apply flush_csv; assumption.
      - split; reflexivity. }
    destruct (batches_loop strftime now_at args true batches st0) as [st e].
    simpl fst in Hinv. destruct Hinv as [Hpw Hst].
    assert (Htrace : csv_trace (output args) (written st)).
    { destruct (csv_header_written st); [right; exact Hst|left; exact Hst]. }
    destruct e as [e|]; simpl fst; [exact Htrace|].
    rewrite Hpw. exact Htrace.
  - rewrite orb_false_r.
    destruct (endswith (lower (output args)) ".parquet"); simpl negb; cbv iota.
    2:{ simpl. left. reflexivity. }
    assert (Hinv : parquet_state (output args)
                     (fst (batches_loop strftime now_at args false batches st0))).
    { apply (batches_loop_calls (parquet_state (output args))).
      - intros st g c Hst. exact Hst.
      - intros st rows_out Hne Hst. apply flush_parquet; assumption.
      - reflexivity. }
    destruct (batches_loop strftime now_at args false batches st0) as [st e].
    simpl fst in Hinv. unfold parquet_state in Hinv.
    destruct e as [e|]; simpl fst; simpl snd.
    + destruct (parquet_writer st); [|left; exact Hinv].
      right. destruct Hinv as [first [rest [-> Hall]]].
      exists first, rest. rewrite app_nil_r. split; [reflexivity|assumption].
    + destruct (parquet_writer st); [|left; exact Hinv].
      right. destruct Hinv as [first [rest [-> Hall]]].
      exists first, rest. cbn [written]. split; [reflexivity|assumption].
Qed.
End OutputCalls.

(** ** Runs with different batch sizes *)

Section OneRun.
Context {Rng : Type} `{BitGenerator Rng}.
Variable strftime : Z -> string.
Variable now_at : Z -> Z.
Import Generate_Reviews.

Lemma reviews_loop_put_before (args : Args) (pid : Z) (pname pcat : string) (n : nat) :
  forall rows_out c g,
    reviews_loop strftime now_at args pid pname pcat n rows_out c g
    = put_before rows_out (reviews_loop strftime now_at args pid pname pcat n [] c g).
Proof.
  induction n as [|n IH]; intros rows_out c g.
  - simpl. unfold ret, put_before. rewrite app_nil_r. reflexivity.
  - simpl. unfold gbind.
    destruct (make_review strftime now_at args pid pname pcat c g) as [[r g1]|e];
      [|reflexivity].
    rewrite (IH (rows_out ++ [r])%list), (IH ([] ++ [r])%list).
    destruct (reviews_loop strftime now_at args pid pname pcat n [] (c + 1) g1)
      as [[[new c'] g']|e]; [|reflexivity].
    unfold put_before. rewrite <- !app_assoc. reflexivity.
Qed.

Lemma product_reviews_put_before (args : Args) (has_category : bool) (p : ProductRow) :
  forall rows_out c g,
    product_reviews strftime now_at args has_category p rows_out c g
    = put_before rows_out (product_reviews strftime now_at args has_category p [] c g).
Proof.
  intros rows_out c g. unfold product_reviews, gbind.
  destruct (choose_num_reviews (max_reviews_per_product args) g) as [[n g1]|e];
    [|reflexivity].
  apply reviews_loop_put_before.
Qed.

Lemma iterrows_cons (args : Args) (has_category : bool) (p : ProductRow)
  (rows : list ProductRow) (c : Z) (g : Rng) :
  iterrows strftime now_at args has_category (p :: rows) [] c g
  = match product_reviews strftime now_at args has_category p [] c g with
    | Ok ((new, c1), g1) =>
        put_before new (iterrows strftime now_at args has_category rows [] c1 g1)
    | Raise e => Raise e
    end.
Proof.
  simpl. unfold gbind.
  destruct (product_reviews strftime now_at args has_category p [] c g)
    as [[[new c1] g1]|e]; [|reflexivity].
  revert new c1 g1. induction rows as [|q rows IH]; intros new c1 g1.
  - simpl. unfold ret, put_before. rewrite app_nil_r. reflexivity.
  - simpl. unfold gbind.
    rewrite (product_reviews_put_before args has_category q new).
    destruct (product_reviews strftime now_at args has_category q [] c1 g1)
      as [[[new2 c2] g2]|e]; [|reflexivity].
    unfold put_before at 1. rewrite (IH (new ++ new2)%list), (IH new2).
    destruct (iterrows strftime now_at args has_category rows [] c2 g2)
      as [[[new3 c3] g3]|e]; [|reflexivity].
    unfold put_before. rewrite <- app_assoc. reflexivity.
Qed.

Lemma put_before_twice (a b : list Review) (r : Result (list Review * Z * Rng)) :
  put_before a (put_before b r) = put_before (a ++ b)%list r.
Proof.
  destruct r as [[[new c] g]|e]; [|reflexivity].
  unfold put_before. rewrite app_assoc. reflexivity.
Qed.

(** The loop over the rows of two lists in a row is the loop over the
    first, then the loop over the second. *)
Lemma iterrows_app (args : Args) (has_category : bool) (rows1 rows2 : list ProductRow) :
  forall c g,
    iterrows strftime now_at args has_category (rows1 ++ rows2)%list [] c g
    = match iterrows strftime now_at args has_category rows1 [] c g with
      | Ok ((new, c1), g1) =>
          put_before new (iterrows strftime now_at args has_category rows2 [] c1 g1)
      | Raise e => Raise e
      end.
Proof.
  induction rows1 as [|p rows1 IH]; intros c g.
  - simpl app. cbn [iterrows]. unfold ret.
    destruct (iterrows strftime now_at args has_category rows2 [] c g)
      as [[[new c'] g']|e]; reflexivity.
  - change ((p :: rows1) ++ rows2)%list with (p :: (rows1 ++ rows2))%list.
    rewrite !iterrows_cons.
    destruct (product_reviews strftime now_at args has_category p [] c g)
      as [[[new c1] g1]|e]; [|reflexivity].
    rewrite IH.
    destruct (iterrows strftime now_at args has_category rows1 [] c1 g1)
      as [[[new1 c2] g2]|e]; [|reflexivity].
    change (put_before new (Ok (new1, c2, g2))) with (Ok ((new ++ new1)%list, c2, g2)).
    cbv iota. rewrite put_before_twice. reflexivity.
Qed.
End OneRun.

Section BatchSize.
Context {Rng : Type} `{BitGenerator Rng}.
Variable strftime : Z -> string.
Variable now_at : Z -> Z.
Import Generate_Reviews.

(** The loop over batches against the loop over all their rows at once. *)
Lemma batches_loop_flat (args : Args) (out_is_csv has_category : bool)
  (batches : list Batch) :
  Forall (fun b => existsb (String.eqb (category_column args)) (columns b)
                   = has_category) batches ->
  forall st : State (Rng:=Rng),
    match iterrows strftime now_at args has_category (flat_map batch_rows batches) []
                   (review_id_counter st) (rng st) with
    | Ok ((new, c), g) =>
        snd (batches_loop strftime now_at args out_is_csv batches st) = None
        /\ emitted (fst (batches_loop strftime now_at args out_is_csv batches st))
           = (emitted st ++ new)%list
        /\ review_id_counter
             (fst (batches_loop strftime now_at args out_is_csv batches st)) = c
    | Raise e => snd (batches_loop strftime now_at args out_is_csv batches st) = Some e
    end.
Proof.
  induction 1 as [|b batches Hb Hrest IH]; intro st.
  - simpl. rewrite app_nil_r. auto.
  - cbn [flat_map batches_loop]. rewrite iterrows_app, Hb.
    destruct (iterrows strftime now_at args has_category (batch_rows b) []
                       (review_id_counter st) (rng st)) as [[[new1 c1] g1]|e];
      [|reflexivity].
    destruct new1 as [|r new1].
    + match goal with
      | |- context [batches_loop _ _ _ _ _ ?s] => specialize (IH s)
      end.
      cbn [review_id_counter rng] in IH.
      destruct (iterrows strftime now_at args has_category (flat_map batch_rows batches)
                         [] c1 g1) as [[[new2 c2] g2]|e]; [|exact IH].
      exact IH.
    + match goal with
      | |- context [batches_loop _ _ _ _ _ ?s] => specialize (IH s)
      end.
      match type of IH with
      | context [flush ?a ?b ?rows ?s] =>
          destruct (emitted_flush a b rows s) as [Hem Hc];
          assert (Hg : rng (flush a b rows s) = g1)
            by (unfold flush; destruct b; reflexivity)
      end.
      rewrite Hem, Hc, Hg in IH. cbn [review_id_counter] in IH.
      change (emitted {| rng := g1; review_id_counter := c1;
                         csv_header_written := csv_header_written st;
                         parquet_writer := parquet_writer st;
                         written := written st |}) with (emitted st) in IH.
      destruct (iterrows strftime now_at args has_category (flat_map batch_rows batches)
                         [] c1 g1) as [[[new2 c2] g2]|e]; [|exact IH].
      unfold put_before. rewrite <- app_assoc in IH. exact IH.
Qed.

(** A run against the loop over all the rows of the file at once. *)
Lemma main_flat (args : Args) (pf : ParquetFile) :
  endswith (lower (output args)) ".parquet" || endswith (lower (output args)) ".csv"
  = true ->
  match iterrows strftime now_at args (has_category_column args)
                 (List.concat (row_groups pf)) [] 1 (default_rng (seed args)) with
  | Ok ((new, c), g) =>
      snd (main strftime now_at args pf) = None
      /\ emitted (fst (main strftime now_at args pf)) = new
      /\ review_id_counter (fst (main strftime now_at args pf)) = c
  | Raise e => snd (main strftime now_at args pf) = Some e
  end.
Proof.
  intro Hext. unfold main. rewrite Hext. simpl negb. cbv iota.
  set (st0 := {| rng := default_rng (seed args); review_id_counter := 1;
                 csv_header_written := false; parquet_writer := false;
                 written := [] |}).
  pose proof (batches_loop_flat args (endswith (lower (output args)) ".csv")
                (has_category_column args)
                (iter_products_from_parquet pf (id_column args) (name_column args)
                   (category_column args) (batch_size args))) as Hflat.
  rewrite iter_products_flat in Hflat.
  specialize (Hflat ltac:(eapply Forall_impl;
                            [|apply iter_products_batches];
                            intros b [_ [_ ->]]; reflexivity) st0).
  cbn [review_id_counter rng st0] in Hflat.
  destruct (iterrows strftime now_at args (has_category_column args)
                     (List.concat (row_groups pf)) [] 1 (default_rng (seed args)))
    as [[[new c] g]|e].
  - destruct Hflat as [Hnone [Hem Hc]].
    destruct (batches_loop _ _ _ _ _ _) as [st e]. simpl in Hnone. subst e.
    simpl fst in *. simpl snd. split; [reflexivity|].
    destruct (parquet_writer st); [|split; assumption].
    cbn [review_id_counter]. split; [|assumption].
    unfold emitted in *. cbn [written]. rewrite flat_map_app. simpl.
    rewrite app_nil_r. exact Hem.
  - destruct (batches_loop _ _ _ _ _ _) as [st e']. simpl in Hflat. subst e'.
    reflexivity.
Qed.



End BatchSize.


(** ** How a run ends, and the order of its output *)

Section RunEnds.
Context {Rng : Type} `{BitGenerator Rng}.
Variable strftime : Z -> string.
Variable now_at : Z -> Z.
Import Generate_Reviews.







Lemma reviews_loop_ids (args : Args) (pid : Z) (pname pcat : string) :
  forall n rows_out c g rows' c' g',
    reviews_loop strftime now_at args pid pname pcat n rows_out c g
    = Ok ((rows', c'), g') ->
    map product_id rows' = (map product_id rows_out ++ repeat pid n)%list.
Proof.
  intros n rows_out c g rows' c' g' Hrun.
  apply (reviews_loop_each strftime now_at (fun r => product_id r = pid)) in Hrun.
  - destruct Hrun as [new [-> [Hall <-]]]. rewrite map_app. f_equal.
    induction Hall as [|r new Hr Hall IH]; [reflexivity|].
    simpl. rewrite Hr, IH. reflexivity.
  - intros c0 g0 r g0' Hr. apply make_review_fields in Hr. apply Hr.
Qed.

Lemma iterrows_ids (args : Args) (has_category : bool) :
  forall rows rows_out c g rows' c' g',
    iterrows strftime now_at args has_category rows rows_out c g
    = Ok ((rows', c'), g') ->
    exists counts,
      List.length counts = List.length rows
      /\ Forall (fun k => (Z.of_nat k <= Z.max 0 (max_reviews_per_product args))%Z)
                counts
      /\ map product_id rows'
         = (map product_id rows_out ++ product_ids_in_order rows counts)%list.
Proof.
  induction rows as [|p rows IH]; intros rows_out c g rows' c' g' Hrun.
  - simpl in Hrun. unfold ret in Hrun. inversion Hrun; subst.
    exists []. rewrite app_nil_r. repeat split. constructor.
  - simpl in Hrun. apply gbind_ok in Hrun.
    destruct Hrun as [[rows1 c1] [g1 [Hp Hrun]]].
    unfold product_reviews in Hp. apply gbind_ok in Hp.
    destruct Hp as [n [g0 [Hn Hp]]].
    apply choose_num_reviews_at_most in Hn.
    apply reviews_loop_ids in Hp.
    apply IH in Hrun. destruct Hrun as [counts [Hlen [Hall Hids]]].
    exists (Z.to_nat n :: counts). split; [simpl; congruence|].
    split; [constructor; [lia|assumption]|].
    rewrite Hids, Hp. simpl. rewrite <- app_assoc. reflexivity.
Qed.

(** X19: in the output of a run that ends without an exception the
    products come in the order of the file, the reviews of one product
    next to each other: each row of the file, in turn, with as many
    reviews as were drawn for it, the maximum at most. *)
Theorem reviews_follow_the_products (args : Args) (pf : ParquetFile) :
  snd (main strftime now_at args pf) = None ->
  exists counts,
    List.length counts = List.length (List.concat (row_groups pf))
    /\ Forall (fun k => (Z.of_nat k <= Z.max 0 (max_reviews_per_product args))%Z)
              counts
    /\ map product_id (emitted (fst (main strftime now_at args pf)))
       = product_ids_in_order (List.concat (row_groups pf)) counts.
Proof.
  intro Hnone.
  destruct (endswith (lower (output args)) ".parquet"
            || endswith (lower (output args)) ".csv") eqn:Hext.
  - pose proof (main_flat strftime now_at args pf Hext) as Hflat.
    destruct (iterrows strftime now_at args (has_category_column args)
                       (List.concat (row_groups pf)) [] 1 (default_rng (seed args)))
      as [[[new c] g]|e] eqn:E.
    + destruct Hflat as [_ [-> _]].
      apply iterrows_ids in E. exact E.
    + congruence.
  - unfold main in Hnone. rewrite Hext in Hnone. discriminate.
Qed.
End RunEnds.


Lemma reviews_follow_the_products_witness :
  snd (Generate_Reviews.main (Rng:=N) Example.strftime Example.now_at
         Example.review_args Example.product_file) = None
  /\ exists counts,
       List.length counts = 3%nat
       /\ Forall (fun k => (Z.of_nat k <= 3)%Z) counts
       /\ map Generate_Reviews.product_id
              (Generate_Reviews.emitted
                 (fst (Generate_Reviews.main (Rng:=N) Example.strftime Example.now_at
                         Example.review_args Example.product_file)))
          = product_ids_in_order
              (List.concat (Generate_Reviews.row_groups Example.product_file)) counts.
Proof.
  assert (Hnone : snd (Generate_Reviews.main (Rng:=N) Example.strftime Example.now_at
                         Example.review_args Example.product_file) = None)
    by (vm_compute; reflexivity).
  split; [exact Hnone|].
  exact (reviews_follow_the_products (Rng:=N) Example.strftime Example.now_at
           Example.review_args Example.product_file Hnone).
Defined.
